(** * Dataverse MCP setup scripts: a shallow embedding and its properties

    The repository ships two variants of [mcp_setup.py]:

    - [plugins/dataverse-mcp-setup/.../mcp_setup.py], the unified tool that
      configures both the Claude Code CLI and GitHub Copilot (module
      [Unified] below);
    - [plugins/dataverse/skills/mcp-setup/mcp_setup.py], the Copilot-only
      tool that names the server after the organization (module [PerOrg]).

    Python values are modelled as follows.  A [str] is a [string]: one
    [ascii] per code point, which covers the code points below 256.  A value
    returned by [json.load] is a [json]; a [dict] keeps its insertion order
    as an association list.  A [set] of [str] is a [gset string].  The
    process state (streams, configuration file) is threaded explicitly and
    exceptions are values of type [exn]. *)

From Stdlib Require Import ZArith NArith Ascii String List Bool Lia.
From stdpp Require Import base option list gmap sets strings sorting.

(** ** Python [str] methods *)

Module Py.

(** [str.lower] on one code point below 256: the capital Latin letters and
    the capital letters of Latin-1 (except the multiplication sign). *)
Definition lower_char (c : ascii) : ascii :=
  let n := N_of_ascii c in
  if ((65 <=? n) && (n <=? 90) || (192 <=? n) && (n <=? 214)
      || (216 <=? n) && (n <=? 222))%N
  then ascii_of_N (n + 32) else c.

Fixpoint lower (s : string) : string :=
  match s with
  | EmptyString => EmptyString
  | String c s' => String (lower_char c) (lower s')
  end.

(** [str.isspace] on one code point below 256; it is also what [\s] matches
    in a [str] pattern of the [re] module. *)
Definition is_space (c : ascii) : bool :=
  let n := N_of_ascii c in
  ((9 <=? n) && (n <=? 13) || (28 <=? n) && (n <=? 32)
   || (n =? 133) || (n =? 160))%N.

Fixpoint mem_char (c : ascii) (chars : string) : bool :=
  match chars with
  | EmptyString => false
  | String d chars' => Ascii.eqb c d || mem_char c chars'
  end.

Fixpoint rstrip_by (p : ascii -> bool) (s : string) : string :=
  match s with
  | EmptyString => EmptyString
  | String c s' =>
      match rstrip_by p s' with
      | EmptyString => if p c then EmptyString else String c EmptyString
      | r => String c r
      end
  end.

Fixpoint lstrip_by (p : ascii -> bool) (s : string) : string :=
  match s with
  | EmptyString => EmptyString
  | String c s' => if p c then lstrip_by p s' else s
  end.

(** [s.rstrip(chars)] *)
Definition rstrip (chars s : string) : string :=
  rstrip_by (fun c => mem_char c chars) s.

(** [s.strip()] *)
Definition strip (s : string) : string :=
  lstrip_by is_space (rstrip_by is_space s).

(** [s.startswith(p)] *)
Definition startswith (p s : string) : bool := String.prefix p s.

(** [needle in hay] for two [str] *)
Fixpoint contains (needle hay : string) : bool :=
  String.prefix needle hay
  || match hay with
     | EmptyString => false
     | String _ hay' => contains needle hay'
     end.

(** [s.replace(old, new)] for a non-empty [old]: the occurrences of [old]
    are found from the left and do not overlap.  [skip] counts the
    characters of the occurrence being dropped. *)
Fixpoint replace_from (old new : string) (skip : nat) (s : string) : string :=
  match s with
  | EmptyString => EmptyString
  | String c s' =>
      match skip with
      | S k => replace_from old new k s'
      | O =>
          if String.prefix old s
          then new +:+ replace_from old new (String.length old - 1) s'
          else String c (replace_from old new 0 s')
      end
  end.

Definition replace (old new s : string) : string := replace_from old new 0 s.

(** [s.split(sep)[0]] for a separator of one character *)
Fixpoint split_head (sep : ascii) (s : string) : string :=
  match s with
  | EmptyString => EmptyString
  | String c s' => if Ascii.eqb c sep then EmptyString else String c (split_head sep s')
  end.

Fixpoint take_while (p : ascii -> bool) (s : string) : string :=
  match s with
  | EmptyString => EmptyString
  | String c s' => if p c then String c (take_while p s') else EmptyString
  end.

Fixpoint drop (n : nat) (s : string) : string :=
  match n, s with
  | S k, String _ s' => drop k s'
  | _, _ => s
  end.

(** [re.findall(r"https://\S+", s)]: the matches from the left, without
    overlap, each one the scheme followed by the longest run of characters
    that are not white space (at least one).  [skip] counts the characters
    of the match being passed over. *)
Fixpoint findall_from (skip : nat) (s : string) : list string :=
  match s with
  | EmptyString => []
  | String _ s' =>
      match skip with
      | S k => findall_from k s'
      | O =>
          let run := take_while (fun c => negb (is_space c)) (drop 8 s) in
          if String.prefix "https://" s && negb (String.eqb run "")
          then ("https://" +:+ run) :: findall_from (7 + String.length run) s'
          else findall_from 0 s'
      end
  end.

Definition findall_https (s : string) : list string := findall_from 0 s.

(** [", ".join(l)] and friends *)
Definition join (sep : string) (l : list string) : string := String.concat sep l.

(** [sorted(urls)] for a set of [str]: strings compare by code point. *)
Definition sorted (urls : gset string) : list string :=
  merge_sort String.le (elements urls).

End Py.

(** ** JSON values, exceptions and the process state *)

(** What [json.load] returns.  A [dict] is kept in insertion order; no
    operation of the program inspects a number. *)
#[warnings="-register-all"]
Inductive json :=
| JNull
| JBool (b : bool)
| JNum (n : Z)
| JStr (s : string)
| JArr (l : list json)
| JObj (kvs : list (string * json)).

(** [k in d] and [d.get(k)] *)
Fixpoint dict_get (k : string) (d : list (string * json)) : option json :=
  match d with
  | [] => None
  | (k', v) :: d' => if String.eqb k k' then Some v else dict_get k d'
  end.

Definition dict_has (k : string) (d : list (string * json)) : bool :=
  match dict_get k d with Some _ => true | None => false end.

(** [d[k] = v]: an existing key keeps its place, a new one goes last. *)
Fixpoint dict_set (k : string) (v : json) (d : list (string * json))
  : list (string * json) :=
  match d with
  | [] => [(k, v)]
  | (k', v') :: d' =>
      if String.eqb k k' then (k, v) :: d' else (k', v') :: dict_set k v d'
  end.

(** [d.get(k, default)] *)
Definition dict_get_default (k : string) (default : json)
    (d : list (string * json)) : json :=
  match dict_get k d with Some v => v | None => default end.

(** Exceptions of the standard library and of the interpreter that the
    program can meet.  [AttributeError obj attr] is the failure of
    [obj.attr]; [TypeError obj] is an operation that the type of [obj] does
    not support; [NameError name] is an unbound global. *)
Inductive exn :=
| CalledProcessError (returncode : Z) (output stderr : string)
| TimeoutExpired
| FileNotFoundError
| OSError (msg : string)
| JSONDecodeError
| HTTPError (code : Z)
| URLError (reason : string)
| AttributeError (obj : json) (attr : string)
| TypeError (obj : json)
| KeyError (key : string)
| NameError (name : string)
| OtherException (msg : string).

(** A [pathlib.Path]: an anchor and the components joined to it. *)
Record path := Path { anchor : string; parts : list string }.

(** A printed line is an f-string: text, or a value whose [str] is left to
    Python.  [JsonDump indent v] is the text of [json.dumps(v, indent)]. *)
Inductive piece :=
| Lit (s : string)
| OfExn (e : exn)
| OfInt (n : Z)
| OfPath (p : path).

Inductive out_item :=
| Line (l : list piece)
| JsonDump (indent : option nat) (v : json).

Definition Text (s : string) : out_item := Line [Lit s].

(** The Copilot configuration file as the program can find it. *)
Inductive file :=
| NoFile                       (* [open] raises [FileNotFoundError] *)
| Unreadable (msg : string)    (* [open] raises another [OSError] *)
| NotJson                      (* [json.load] raises [JSONDecodeError] *)
| JsonDoc (v : json).          (* [json.load] returns [v] *)

Record state := State {
  config : file;
  stdout : list out_item;
  stderr : list out_item
}.

(** A step of a function body yields a value, returns from the function
    with an exit code, or raises. *)
Inductive outcome (A : Type) :=
| Val (a : A)
| Returned (code : Z)
| Raised (e : exn).
Arguments Val {A} a.
Arguments Returned {A} code.
Arguments Raised {A} e.

Definition M (A : Type) : Type := state -> outcome A * state.

Definition ret {A} (a : A) : M A := fun s => (Val a, s).
Definition return_ {A} (code : Z) : M A := fun s => (Returned code, s).
Definition raise {A} (e : exn) : M A := fun s => (Raised e, s).

Definition bind {A B} (m : M A) (k : A -> M B) : M B :=
  fun s =>
    match m s with
    | (Val a, s') => k a s'
    | (Returned c, s') => (Returned c, s')
    | (Raised e, s') => (Raised e, s')
    end.

Declare Scope py_scope.
Delimit Scope py_scope with py.
Notation "x ← y ; z" := (bind y (fun x => z))
  (at level 20, y at level 100, z at level 200, only parsing) : py_scope.
Notation "' x ← y ; z" := (bind y (fun x => z))
  (at level 20, x pattern, y at level 100, z at level 200, only parsing)
  : py_scope.
Notation "x ;; z" := (bind x (fun _ => z))
  (at level 100, z at level 200, only parsing, right associativity)
  : py_scope.
Open Scope py_scope.

(** [try: body except <classes>: handler]; [catches e] tells whether the
    [except] clause matches [e]. *)
Definition try_except {A} (body : M A) (catches : exn -> bool)
    (handler : exn -> M A) : M A :=
  fun s =>
    match body s with
    | (Raised e, s') => if catches e then handler e s' else (Raised e, s')
    | r => r
    end.

Definition print (x : out_item) : M unit :=
  fun s => (Val tt, State (config s) (stdout s ++ [x]) (stderr s)).

Definition eprint (x : out_item) : M unit :=
  fun s => (Val tt, State (config s) (stdout s) (stderr s ++ [x])).

(** [when c m] is [if c: m]. *)
Definition when (c : bool) (m : M unit) : M unit := if c then m else ret tt.

(** [for x in l: body], threading the variables the body assigns. *)
Fixpoint for_each {A S : Type} (l : list A) (body : A -> S -> M S) (acc : S)
  : M S :=
  match l with
  | [] => ret acc
  | x :: l' => acc' ← body x acc; for_each l' body acc'
  end.

Definition is_CalledProcessError (e : exn) : bool :=
  match e with CalledProcessError _ _ _ => true | _ => false end.
Definition is_TimeoutExpired (e : exn) : bool :=
  match e with TimeoutExpired => true | _ => false end.
Definition is_FileNotFoundError (e : exn) : bool :=
  match e with FileNotFoundError => true | _ => false end.
Definition is_JSONDecodeError (e : exn) : bool :=
  match e with JSONDecodeError => true | _ => false end.
Definition is_HTTPError (e : exn) : bool :=
  match e with HTTPError _ => true | _ => false end.
(** [HTTPError] is a subclass of [URLError]. *)
Definition is_URLError (e : exn) : bool :=
  match e with URLError _ | HTTPError _ => true | _ => false end.
(** Every modelled exception derives from [Exception]. *)
Definition is_Exception (e : exn) : bool := true.

(** ** Operations of the interpreter on JSON values *)

(** [obj.get(k, default)]: only a [dict] has the method. *)
Definition py_get (obj : json) (k : string) (default : json) : M json :=
  match obj with
  | JObj d => ret (dict_get_default k default d)
  | _ => raise (AttributeError obj "get")
  end.

(** [obj.values()] *)
Definition py_values (obj : json) : M (list json) :=
  match obj with
  | JObj d => ret (map snd d)
  | _ => raise (AttributeError obj "values")
  end.

(** [obj.rstrip(chars)]: only a [str] has the method. *)
Definition py_rstrip (chars : string) (obj : json) : M string :=
  match obj with
  | JStr s => ret (Py.rstrip chars s)
  | _ => raise (AttributeError obj "rstrip")
  end.

(** [for e in obj]: a list yields its items, a dict its keys, a str its
    characters; nothing else is iterable. *)
Definition py_iter (obj : json) : M (list json) :=
  match obj with
  | JArr l => ret l
  | JObj d => ret (map (fun kv => JStr (fst kv)) d)
  | JStr s => ret (map (fun c => JStr (String c "")) (list_ascii_of_string s))
  | _ => raise (TypeError obj)
  end.

(** [v == s] for a [str] literal [s] *)
Definition json_eq_str (v : json) (s : string) : bool :=
  match v with JStr s' => String.eqb s' s | _ => false end.

(** [k in obj] for a [str] [k] *)
Definition py_in (k : string) (obj : json) : M bool :=
  match obj with
  | JObj d => ret (dict_has k d)
  | JArr l => ret (existsb (fun v => json_eq_str v k) l)
  | JStr s => ret (Py.contains k s)
  | _ => raise (TypeError obj)
  end.

(** [obj[k]] for a [str] [k] *)
Definition py_getitem (obj : json) (k : string) : M json :=
  match obj with
  | JObj d =>
      match dict_get k d with Some v => ret v | None => raise (KeyError k) end
  | _ => raise (TypeError obj)
  end.

(** [obj[k] = v] for a [str] [k] *)
Definition py_setitem (obj : json) (k : string) (v : json) : M json :=
  match obj with
  | JObj d => ret (JObj (dict_set k v d))
  | _ => raise (TypeError obj)
  end.

(** ** The host: everything outside the process *)

(** How a child process ends: with a return code and its two streams, or
    not at all because the executable could not be started. *)
Inductive proc :=
| Exited (returncode : Z) (out err : string)
| NotLaunched.

(** A child process run with a [timeout]. *)
Inductive timed :=
| Within (p : proc)
| Expired.

(** What [urlopen], [read], [decode] and [json.loads] give together. *)
Inductive http :=
| HttpJson (v : json)
| HttpRaises (e : exn).

Record host := Host {
  is_windows : bool;               (* platform.system() == "Windows" *)
  env_userprofile : option string; (* os.environ.get("USERPROFILE") *)
  home_dir : string;               (* os.path.expanduser("~") *)
  env_usetip : option string;      (* os.environ.get("MCP_SETUP_USETIP") *)
  which : string -> bool;          (* shutil.which(name) is not None *)
  az_account_show : timed;
  az_login : proc;
  az_get_access_token : timed;
  http_get : string -> string -> http;   (* by URL and bearer token *)
  claude_mcp_list : timed;
  claude_mcp_add : string -> proc;       (* by server URL *)
  mkdir_error : option exn;        (* config_file.parent.mkdir(...) *)
  write_error : option exn         (* open(config_file, "w") *)
}.

(** The [CompletedProcess] of [subprocess.run(..., capture_output=True)]. *)
Record completed := Completed {
  returncode : Z;
  p_stdout : string;
  p_stderr : string
}.

(** [subprocess.run(cmd, check=check)] *)
Definition run (check : bool) (p : proc) : M completed :=
  match p with
  | Exited rc out err =>
      if check && negb (rc =? 0)%Z then raise (CalledProcessError rc out err)
      else ret (Completed rc out err)
  | NotLaunched => raise FileNotFoundError
  end.

(** [subprocess.run(cmd, check=check, timeout=...)] *)
Definition run_timed (check : bool) (t : timed) : M completed :=
  match t with
  | Within p => run check p
  | Expired => raise TimeoutExpired
  end.

(** [with open(config_file) as f: json.load(f)] *)
Definition load_config : M json :=
  fun s =>
    match config s with
    | NoFile => (Raised FileNotFoundError, s)
    | Unreadable msg => (Raised (OSError msg), s)
    | NotJson => (Raised JSONDecodeError, s)
    | JsonDoc v => (Val v, s)
    end.

(** [with open(config_file, "w") as f: json.dump(v, f, indent=2); f.write("\n")]:
    the whole file is rewritten. *)
Definition dump_config (h : host) (v : json) : M unit :=
  match write_error h with
  | Some e => raise e
  | None => fun s => (Val tt, State (JsonDoc v) (stdout s) (stderr s))
  end.

Definition mkdir_parents (h : host) : M unit :=
  match mkdir_error h with
  | Some e => raise e
  | None => ret tt
  end.

(** [name] as a global of a module whose bound globals are [globals]. *)
Definition global_ (globals : list string) (name : string) : M unit :=
  if existsb (String.eqb name) globals then ret tt else raise (NameError name).

(** The exit status of [sys.exit(main())]: the code that [main] returns, 0
    when it returns [None], and 1 after an exception nobody handles. *)
Definition exit_status {A} (r : outcome A) : Z :=
  match r with
  | Val _ => 0
  | Returned code => code
  | Raised _ => 1
  end.

(** ** Functions whose text is the same in both files

    [globals] are the names bound at the top level of the module that holds
    the function. *)

Module Common.
Section Common.
Variable globals : list string.
Variable h : host.

Definition get_copilot_config_path : path * string :=
  if is_windows h
  then (Path (default (home_dir h) (env_userprofile h))
             [".copilot"; "mcp-config.json"],
        "%USERPROFILE%\.copilot\mcp-config.json")
  else (Path (home_dir h) [".copilot"; "mcp-config.json"],
        "~/.copilot/mcp-config.json").

(** The body of the loop that filters the records of the response. *)
Definition filter_record (e : json) (envs : list json) : M (list json) :=
  props ← py_get e "properties" (JObj []);
  db ← py_get props "databaseType" JNull;
  if negb (json_eq_str db "CommonDataService") then ret envs
  else
    linked_metadata ← py_get props "linkedEnvironmentMetadata" (JObj []);
    raw ← py_get linked_metadata "instanceUrl" (JStr "");
    instance_url ← py_rstrip "/" raw;
    if negb (String.eqb instance_url "") then
      display ← py_get props "displayName" (JStr "(unnamed)");
      ret (envs ++ [JObj [("displayName", display);
                          ("instanceUrl", JStr instance_url)]])
    else ret envs.

(** The filter step of [list_environments]: the loop over [data["value"]]. *)
Definition filter_environments (data : json) : M (list json) :=
  value ← py_get data "value" (JArr []);
  records ← py_iter value;
  for_each records filter_record [].

Definition api_url : string :=
  if existsb (String.eqb (Py.lower (default "" (env_usetip h))))
             ["true"; "1"; "yes"]
  then "https://tip1.api.bap.microsoft.com/providers/Microsoft.BusinessAppPlatform/scopes/admin/environments?api-version=2023-06-01"
  else "https://api.powerapps.com/providers/Microsoft.PowerApps/environments?api-version=2016-11-01".

Definition list_environments : M unit :=
  global_ globals "shutil";;
  if negb (which h "az") then
    eprint (Text "Error: Azure CLI (az) is not installed. Install it from https://aka.ms/installazurecli");;
    return_ 1
  else
    try_except
      (run_timed true (az_account_show h);; ret tt)
      (fun e => is_CalledProcessError e || is_TimeoutExpired e)
      (fun _ =>
         try_except
           (run true (az_login h);; ret tt)
           is_CalledProcessError
           (fun _ => eprint (Text "Error: Azure login failed.");; return_ 1));;
    token ← try_except
      (result ← run_timed true (az_get_access_token h);
       ret (Py.strip (p_stdout result)))
      (fun e => is_CalledProcessError e || is_TimeoutExpired e)
      (fun _ =>
         eprint (Text "Error: Could not obtain an access token. Run 'az login' and try again.");;
         return_ 1);
    data ← try_except
      (match http_get h api_url token with
       | HttpJson v => ret v
       | HttpRaises e => raise e
       end)
      is_Exception
      (fun e =>
         match e with
         | HTTPError code =>
             eprint (Line [Lit "Error: HTTP "; OfInt code;
                           Lit " - Failed to retrieve environments from Power Apps API."]);;
             return_ 1
         | URLError reason =>
             eprint (Line [Lit "Error: Failed to connect to Power Apps API: ";
                           Lit reason]);;
             return_ 1
         | JSONDecodeError =>
             eprint (Line [Lit "Error: Could not parse API response: "; OfExn e]);;
             return_ 1
         | _ =>
             eprint (Line [Lit "Error: Unexpected error calling Power Apps API: ";
                           OfExn e]);;
             return_ 1
         end);
    envs ← filter_environments data;
    match envs with
    | [] =>
        eprint (Text "No Dataverse (CommonDataService) environments were found for this account.");;
        return_ 1
    | _ =>
        print (JsonDump (Some 2%nat) (JArr envs));;
        return_ 0
    end.

(** The second source of [get_configured_servers]: the URLs of the entries
    of the configuration file, added to [urls]. *)
Definition add_server_url (server : json) (urls : gset string)
  : M (gset string) :=
  raw ← py_get server "url" (JStr "");
  url ← py_rstrip "/" raw;
  if Py.startswith "https://" url then ret (urls ∪ {[ url ]}) else ret urls.

Definition read_config_urls (urls : gset string) : M (gset string) :=
  try_except
    (config ← load_config;
     fallback ← py_get config "servers" (JObj []);
     servers ← py_get config "mcpServers" fallback;
     values ← py_values servers;
     for_each values add_server_url urls)
    (fun e => is_FileNotFoundError e || is_JSONDecodeError e
              || match e with KeyError _ => true | _ => false end)
    (fun _ => ret urls).

End Common.
End Common.

(** The double quote and the line feed, as one-character strings. *)
Definition dq : string := String "034"%char "".
Definition nl : string := String "010"%char "".

(** [tool in ("a", "b")] *)
Definition one_of (tool : string) (options : list string) : bool :=
  existsb (String.eqb tool) options.

(** [s * n] *)
Fixpoint str_repeat (s : string) (n : nat) : string :=
  match n with
  | O => ""
  | S k => s +:+ str_repeat s k
  end.

(** ** [plugins/dataverse-mcp-setup]: the unified tool

    A parameter with a default value is an [option]: [None] is a call that
    leaves the argument out. *)

Module Unified.

Definition SERVER_NAME : string := "Dataverse".
Definition CLAUDE_OAUTH_CLIENT_ID : string := "f4ffe97c-20c7-4620-9ad6-b3e41f878dd0".

(** The names bound at the top level of the module. *)
Definition globals : list string :=
  ["argparse"; "json"; "os"; "platform"; "re"; "shutil"; "subprocess"; "sys";
   "Path"; "List"; "Dict"; "Set"; "Optional"; "Tuple"; "Request"; "urlopen";
   "URLError"; "HTTPError"; "SERVER_NAME"; "CLAUDE_OAUTH_CLIENT_ID";
   "get_copilot_config_path"; "has_claude_cli"; "detect_tools";
   "list_environments"; "get_configured_servers"; "configure_copilot";
   "configure_claude"; "print_manual_instructions"; "configure"; "main"].

Section Unified.
Variable h : host.

Definition get_copilot_config_path : path * string :=
  Common.get_copilot_config_path h.

Definition has_claude_cli : bool := which h "claude".

Definition detect_tools : M unit :=
  print (JsonDump (Some 2%nat)
           (JObj [("claude", JBool has_claude_cli); ("copilot", JBool true)]));;
  return_ 0.

Definition list_environments : M unit := Common.list_environments globals h.

(** The characters that [get_configured_servers] trims from a URL found in
    the output of [claude mcp list]. *)
Definition url_trailing : string := ".,;)" +:+ dq +:+ "'".

Definition get_configured_servers (tool : option string) : M unit :=
  let tool := default "both" tool in
  let urls : gset string := ∅ in
  urls ←
    (if one_of tool ["claude"; "both"] && has_claude_cli then
       try_except
         (result ← run_timed false (claude_mcp_list h);
          if (returncode result =? 0)%Z then
            ret (fold_left
                   (fun acc url => acc ∪ {[ Py.rstrip url_trailing url ]})
                   (Py.findall_https (p_stdout result)) urls)
          else ret urls)
         (fun e => is_FileNotFoundError e || is_TimeoutExpired e)
         (fun _ => ret urls)
     else ret urls);
  urls ←
    (if one_of tool ["copilot"; "both"] then Common.read_config_urls urls
     else ret urls);
  print (JsonDump None (JArr (JStr <$> Py.sorted urls)));;
  return_ 0.

(** [config[servers_key][SERVER_NAME] = {...}] changes the inner dict in
    place, so the entry shows in [config]. *)
Definition configure_copilot (mcp_url : string) : M unit :=
  mkdir_parents h;;
  config ← try_except load_config
    (fun e => is_FileNotFoundError e || is_JSONDecodeError e)
    (fun _ => ret (JObj []));
  has_servers ← py_in "servers" config;
  let servers_key := if has_servers then "servers" else "mcpServers" in
  has_key ← py_in servers_key config;
  config ← (if negb has_key then py_setitem config servers_key (JObj [])
            else ret config);
  servers ← py_getitem config servers_key;
  servers ← py_setitem servers SERVER_NAME
    (JObj [("type", JStr "http"); ("url", JStr mcp_url)]);
  config ← py_setitem config servers_key servers;
  dump_config h config.

Definition manual_command (mcp_url : string) : string :=
  "claude mcp add --scope user " +:+ dq +:+ SERVER_NAME +:+ dq
  +:+ " -t http " +:+ dq +:+ mcp_url +:+ dq +:+ " "
  +:+ "--client-id " +:+ dq +:+ CLAUDE_OAUTH_CLIENT_ID +:+ dq.

Definition configure_claude (mcp_url : string) : M (bool * option string) :=
  try_except
    (run true (claude_mcp_add h mcp_url);; ret (true, None))
    is_CalledProcessError
    (fun e =>
       match e with
       | CalledProcessError _ e_stdout e_stderr =>
           let error_output := e_stderr +:+ e_stdout in
           if Py.contains "cannot be launched inside another Claude Code session"
                (Py.lower error_output)
              || Py.contains "already running" (Py.lower error_output)
           then ret (false, Some (manual_command mcp_url))
           else raise e
       | _ => raise e
       end).

(** The f-string of the function reads the globals [SERVER_NAME] and
    [OAUTH_CLIENT_ID] before anything is printed.  The second one is not
    bound, so the text is never produced; it is cut here to its first line
    and the two arguments.  [configure] never calls the function. *)
Definition print_manual_instructions (mcp_url display_path : string) : M unit :=
  global_ globals "SERVER_NAME";;
  global_ globals "OAUTH_CLIENT_ID";;
  print (Line [Lit "Neither the Claude Code CLI nor Python is installed";
               Lit mcp_url; Lit display_path]).

Definition manual_block (manual_cmd : option string) : string :=
  nl +:+ "Claude Code cannot be configured from within a Claude session." +:+ nl
  +:+ "Please exit this Claude session and run the following command:" +:+ nl +:+ nl
  +:+ "  " +:+ default "None" manual_cmd +:+ nl.

Definition build_mcp_url (org_url endpoint_type : string) : string :=
  if String.eqb endpoint_type "preview" then org_url +:+ "/api/mcp_preview"
  else org_url +:+ "/api/mcp".

Definition configure (org_url : string) (endpoint_type tool : option string)
  : M unit :=
  let endpoint_type := default "ga" endpoint_type in
  let tool := default "both" tool in
  let mcp_url := build_mcp_url org_url endpoint_type in
  let has_claude := has_claude_cli in
  let '(config_file, display_path) := get_copilot_config_path in
  let configured_for : list string := [] in
  let manual_commands : list string := [] in
  '(configured_for, manual_commands) ←
    (if one_of tool ["claude"; "both"] then
       if negb has_claude then
         eprint (Text "Error: Claude CLI not found. Cannot configure Claude.");;
         if String.eqb tool "claude" then return_ 1
         else ret (configured_for, manual_commands)
       else
         try_except
           ('(success, manual_cmd) ← configure_claude mcp_url;
            if success : bool then
              ret (configured_for ++ ["Claude Code CLI"], manual_commands)
            else
              let manual_commands := manual_commands ++ [manual_block manual_cmd] in
              if String.eqb tool "claude" then
                print (Text (default "" (head manual_commands)));;
                return_ 0
              else ret (configured_for, manual_commands))
           is_CalledProcessError
           (fun e =>
              eprint (Line [Lit "Error: Failed to configure Claude CLI: "; OfExn e]);;
              if String.eqb tool "claude" then return_ 1
              else ret (configured_for, manual_commands))
     else ret (configured_for, manual_commands));
  configured_for ←
    (if one_of tool ["copilot"; "both"] then
       try_except
         (configure_copilot mcp_url;;
          ret (configured_for ++ ["GitHub Copilot"]))
         is_Exception
         (fun e =>
            eprint (Line [Lit "Error: Failed to configure GitHub Copilot: "; OfExn e]);;
            if String.eqb tool "copilot" then return_ 1 else ret configured_for)
     else ret configured_for);
  match configured_for, manual_commands with
  | [], [] =>
      eprint (Text "Error: No tools were configured.");;
      return_ 1
  | _, _ =>
      when (negb (bool_decide (configured_for = [])))
        (print (Text "Dataverse MCP server registered successfully.");;
         print (Text ("  Server URL     : " +:+ mcp_url));;
         print (Text ("  Configured for : " +:+ Py.join ", " configured_for));;
         when (existsb (String.eqb "GitHub Copilot") configured_for)
           (print (Line [Lit "  Copilot config : "; OfPath config_file])));;
      when (negb (bool_decide (manual_commands = [])))
        (print (Text (nl +:+ str_repeat "=" 80));;
         print (Text "MANUAL CONFIGURATION REQUIRED");;
         print (Text (str_repeat "=" 80));;
         for_each manual_commands (fun cmd _ => print (Text cmd)) tt);;
      return_ 0
  end.

(** The parsed command line, as [argparse] hands it to [main]: an omitted
    optional argument already holds its default. *)
Inductive command :=
| DetectTools
| ListEnvironments
| GetConfigured (tool : string)
| Configure (org_url endpoint_type tool : string).

Definition main (c : command) : M unit :=
  match c with
  | DetectTools => detect_tools
  | ListEnvironments => list_environments
  | GetConfigured tool => get_configured_servers (Some tool)
  | Configure org_url endpoint_type tool =>
      configure org_url (Some endpoint_type) (Some tool)
  end.

End Unified.
End Unified.

(** ** [plugins/dataverse]: the Copilot-only tool, one server per organization *)

Module PerOrg.

Definition SERVER_NAME_PREFIX : string := "DataverseMcp".

(** The names bound at the top level of the module: there is no
    [import shutil]. *)
Definition globals : list string :=
  ["argparse"; "json"; "os"; "platform"; "subprocess"; "sys"; "Path"; "Set";
   "Request"; "urlopen"; "URLError"; "HTTPError"; "SERVER_NAME_PREFIX";
   "get_copilot_config_path"; "extract_org_name"; "get_server_name";
   "list_environments"; "get_configured_servers"; "configure_copilot";
   "configure"; "main"].

Definition extract_org_name (org_url : string) : string :=
  let url := Py.rstrip "/" (Py.replace "http://" "" (Py.replace "https://" "" org_url)) in
  let org_id := Py.split_head "." url in
  org_id.

Definition get_server_name (org_url : string) : string :=
  let org_id := extract_org_name org_url in
  SERVER_NAME_PREFIX +:+ org_id.

Section PerOrg.
Variable h : host.

Definition get_copilot_config_path : path * string :=
  Common.get_copilot_config_path h.

Definition list_environments : M unit := Common.list_environments globals h.

Definition get_configured_servers : M unit :=
  let urls : gset string := ∅ in
  urls ← Common.read_config_urls urls;
  print (JsonDump None (JArr (JStr <$> Py.sorted urls)));;
  return_ 0.

(** [config[servers_key][server_name] = {...}] changes the inner dict in
    place, so the entry shows in [config]. *)
Definition configure_copilot (mcp_url server_name : string) : M unit :=
  mkdir_parents h;;
  config ← try_except load_config
    (fun e => is_FileNotFoundError e || is_JSONDecodeError e)
    (fun _ => ret (JObj []));
  has_servers ← py_in "servers" config;
  let servers_key := if has_servers then "servers" else "mcpServers" in
  has_key ← py_in servers_key config;
  config ← (if negb has_key then py_setitem config servers_key (JObj [])
            else ret config);
  servers ← py_getitem config servers_key;
  servers ← py_setitem servers server_name
    (JObj [("type", JStr "http"); ("url", JStr mcp_url)]);
  config ← py_setitem config servers_key servers;
  dump_config h config.

Definition build_mcp_url (org_url endpoint_type : string) : string :=
  if String.eqb endpoint_type "preview" then org_url +:+ "/api/mcp_preview"
  else org_url +:+ "/api/mcp".

Definition configure (org_url : string) (endpoint_type : option string)
  : M unit :=
  let endpoint_type := default "ga" endpoint_type in
  let mcp_url := build_mcp_url org_url endpoint_type in
  let server_name := get_server_name org_url in
  let '(config_file, display_path) := get_copilot_config_path in
  try_except
    (configure_copilot mcp_url server_name)
    is_Exception
    (fun e =>
       eprint (Line [Lit "Error: Failed to configure GitHub Copilot: "; OfExn e]);;
       return_ 1);;
  print (Text "Dataverse MCP server registered successfully for GitHub Copilot.");;
  print (Text ("  Server name    : " +:+ server_name));;
  print (Text ("  Server URL     : " +:+ mcp_url));;
  print (Line [Lit "  Copilot config : "; OfPath config_file]);;
  return_ 0.

Inductive command :=
| ListEnvironments
| GetConfigured
| Configure (org_url endpoint_type : string).

Definition main (c : command) : M unit :=
  match c with
  | ListEnvironments => list_environments
  | GetConfigured => get_configured_servers
  | Configure org_url endpoint_type => configure org_url (Some endpoint_type)
  end.

End PerOrg.
End PerOrg.

(** A process starts with both streams empty. *)
Definition start (f : file) : state := State f [] [].

(** A host on which every external command succeeds and prints nothing. *)
Definition quiet_host : host :=
  {| is_windows := false; env_userprofile := None; home_dir := "/home/u";
     env_usetip := None; which := fun _ => true;
     az_account_show := Within (Exited 0 "" "");
     az_login := Exited 0 "" "";
     az_get_access_token := Within (Exited 0 "tok" "");
     http_get := fun _ _ => HttpJson (JObj []);
     claude_mcp_list := Within (Exited 0 "" "");
     claude_mcp_add := fun _ => Exited 0 "" "";
     mkdir_error := None; write_error := None |}.

(** The quiet host, except that [claude mcp add] ends as [p]. *)
Definition host_with_claude_add (p : proc) : host :=
  {| is_windows := false; env_userprofile := None; home_dir := "/home/u";
     env_usetip := None; which := fun _ => true;
     az_account_show := Within (Exited 0 "" "");
     az_login := Exited 0 "" "";
     az_get_access_token := Within (Exited 0 "tok" "");
     http_get := fun _ _ => HttpJson (JObj []);
     claude_mcp_list := Within (Exited 0 "" "");
     claude_mcp_add := fun _ => p;
     mkdir_error := None; write_error := None |}.

(** What the Claude Code CLI prints when it is started inside a session. *)
Definition nested_session_message : string :=
  "Error: Claude Code cannot be launched inside another Claude Code session.".

Definition nested_session_host : host :=
  host_with_claude_add (Exited 1 "" nested_session_message).

Definition already_running_host : host :=
  host_with_claude_add (Exited 1 "" "Error: Claude is already running.").

(** A host without the Claude CLI on which the configuration file cannot
    be written. *)
Definition bare_host : host :=
  {| is_windows := false; env_userprofile := None; home_dir := "/home/u";
     env_usetip := None; which := fun _ => false;
     az_account_show := Within NotLaunched;
     az_login := NotLaunched;
     az_get_access_token := Within NotLaunched;
     http_get := fun _ _ => HttpRaises (URLError "unreachable");
     claude_mcp_list := Within NotLaunched;
     claude_mcp_add := fun _ => NotLaunched;
     mkdir_error := None;
     write_error := Some (OSError "Read-only file system") |}.

(** ** Words of the specification

    The servers key of a configuration store and the entries under it. *)
Definition servers_key_of (top : list (string * json)) : string :=
  if dict_has "servers" top then "servers" else "mcpServers".

Definition entries_of (top : list (string * json)) : list (string * json) :=
  match dict_get (servers_key_of top) top with
  | Some (JObj d) => d
  | _ => []
  end.

(** The entry that the writer stores for a server. *)
Definition server_entry (mcp_url : string) : json :=
  JObj [("type", JStr "http"); ("url", JStr mcp_url)].

(** The records of a response of the management API, and the fields of a
    record with the defaults that the filter gives them. *)
Definition response_records (data : json) : list json :=
  match data with
  | JObj d =>
      match dict_get_default "value" (JArr []) d with
      | JArr l => l
      | JObj kvs => map (fun kv => JStr (fst kv)) kvs
      | JStr s => map (fun c => JStr (String c "")) (list_ascii_of_string s)
      | _ => []
      end
  | _ => []
  end.

Definition record_properties (e : json) : list (string * json) :=
  match e with
  | JObj d =>
      match dict_get_default "properties" (JObj []) d with
      | JObj p => p
      | _ => []
      end
  | _ => []
  end.

Definition database_type (e : json) : json :=
  dict_get_default "databaseType" JNull (record_properties e).

Definition display_name (e : json) : json :=
  dict_get_default "displayName" (JStr "(unnamed)") (record_properties e).

(** [properties.linkedEnvironmentMetadata.instanceUrl] after trimming the
    trailing slashes *)
Definition trimmed_instance_url (e : json) : string :=
  match dict_get_default "linkedEnvironmentMetadata" (JObj [])
          (record_properties e) with
  | JObj m =>
      match dict_get_default "instanceUrl" (JStr "") m with
      | JStr u => Py.rstrip "/" u
      | _ => ""
      end
  | _ => ""
  end.

Definition is_dataverse (e : json) : bool :=
  json_eq_str (database_type e) "CommonDataService"
  && negb (String.eqb (trimmed_instance_url e) "").

Definition projection (e : json) : json :=
  JObj [("displayName", display_name e);
        ("instanceUrl", JStr (trimmed_instance_url e))].

(** The environment list in the words of the specification. *)
Definition spec_environments (records : list json) : list json :=
  map projection (List.filter is_dataverse records).

(** The shape under which the filter raises no exception: every record is
    an object whose [properties] is an object and, for a Dataverse record,
    whose linked metadata is an object with a [str] instance URL. *)
Definition record_well_shaped (e : json) : bool :=
  match e with
  | JObj d =>
      match dict_get_default "properties" (JObj []) d with
      | JObj p =>
          if json_eq_str (dict_get_default "databaseType" JNull p)
               "CommonDataService"
          then
            match dict_get_default "linkedEnvironmentMetadata" (JObj []) p with
            | JObj m =>
                match dict_get_default "instanceUrl" (JStr "") m with
                | JStr _ => true
                | _ => false
                end
            | _ => false
            end
          else true
      | _ => false
      end
  | _ => false
  end.

Definition response_well_shaped (data : json) : bool :=
  match data with
  | JObj d =>
      match dict_get_default "value" (JArr []) d with
      | JArr _ | JObj _ | JStr _ =>
          forallb record_well_shaped (response_records data)
      | _ => false
      end
  | _ => false
  end.

(** A record of the management API with the given fields. *)
Definition api_record (database display url : string) : json :=
  JObj [("name", JStr "env");
        ("properties",
         JObj [("displayName", JStr display);
               ("databaseType", JStr database);
               ("linkedEnvironmentMetadata",
                JObj [("instanceUrl", JStr url)])])].

Definition sample_response : json :=
  JObj [("value",
         JArr [api_record "CommonDataService" "Acme" "https://acme.crm.dynamics.com/";
               api_record "None" "Plain" "https://plain.crm.dynamics.com/";
               api_record "CommonDataService" "Empty" "//"])].

(** The session probe succeeds, or fails in a way that the lister handles
    and the interactive login then succeeds. *)
Definition login_succeeds (h : host) : bool :=
  match az_login h with
  | Exited rc _ _ => (rc =? 0)%Z
  | NotLaunched => false
  end.

Definition session_ready (h : host) : bool :=
  match az_account_show h with
  | Within (Exited rc _ _) => (rc =? 0)%Z || login_succeeds h
  | Within NotLaunched => false
  | Expired => login_succeeds h
  end.

(** A host whose management API answers with [data]. *)
Definition host_with_response (data : json) : host :=
  {| is_windows := false; env_userprofile := None; home_dir := "/home/u";
     env_usetip := None; which := fun _ => true;
     az_account_show := Expired;
     az_login := Exited 0 "" "";
     az_get_access_token := Within (Exited 0 (" tok" +:+ nl) "");
     http_get := fun url token =>
       if String.eqb token "tok" then HttpJson data
       else HttpRaises (HTTPError 401);
     claude_mcp_list := Within (Exited 0 "" "");
     claude_mcp_add := fun _ => Exited 0 "" "";
     mkdir_error := None; write_error := None |}.

(** A response without any Dataverse environment. *)
Definition barren_response : json :=
  JObj [("value",
         JArr [api_record "None" "Plain" "https://plain.crm.dynamics.com/";
               api_record "CommonDataService" "Empty" "//"])].

(** The characters of a DNS label. *)
Definition is_label_char (c : ascii) : bool :=
  let n := N_of_ascii c in
  ((48 <=? n) && (n <=? 57) || (65 <=? n) && (n <=? 90)
   || (97 <=? n) && (n <=? 122) || (n =? 45))%N.

Fixpoint is_label (s : string) : bool :=
  match s with
  | EmptyString => true
  | String c s' => is_label_char c && is_label s'
  end.

(** What [get_configured_servers] of the unified tool does once its first
    source has left [urls0] in the set: the second source, when asked for,
    and the printing of the sorted set. *)
Definition finish_reader (tool : string) (urls0 : gset string) : M unit :=
  urls ← (if one_of tool ["copilot"; "both"] then Common.read_config_urls urls0
          else ret urls0);
  print (JsonDump None (JArr (JStr <$> Py.sorted urls)));;
  return_ 0.

(** A configuration file with two servers. *)
Definition sample_config : file :=
  JsonDoc (JObj [("servers",
                  JObj [("x", JObj [("type", JStr "http");
                                    ("url", JStr "https://b.example/")]);
                        ("y", JObj [("url", JStr "https://a.example")])])]).

(** ** Views of the operations, used to state further properties *)

(** What the lister does with the response once it has it. *)
Definition report_environments (data : json) : M unit :=
  envs ← Common.filter_environments data;
  match envs with
  | [] =>
      eprint (Text "No Dataverse (CommonDataService) environments were found for this account.");;
      return_ 1
  | _ =>
      print (JsonDump (Some 2%nat) (JArr envs));;
      return_ 0
  end.

Definition fetch_response (h : host) (token : string) : M json :=
  try_except
      (match http_get h (Common.api_url h) token with
       | HttpJson v => ret v
       | HttpRaises e => raise e
       end)
      is_Exception
      (fun e =>
         match e with
         | HTTPError code =>
             eprint (Line [Lit "Error: HTTP "; OfInt code;
                           Lit " - Failed to retrieve environments from Power Apps API."]);;
             return_ 1
         | URLError reason =>
             eprint (Line [Lit "Error: Failed to connect to Power Apps API: ";
                           Lit reason]);;
             return_ 1
         | JSONDecodeError =>
             eprint (Line [Lit "Error: Could not parse API response: "; OfExn e]);;
             return_ 1
         | _ =>
             eprint (Line [Lit "Error: Unexpected error calling Power Apps API: ";
                           OfExn e]);;
             return_ 1
         end).

(** What the writer finds in the file: a missing file and a file that is
    not JSON are the empty store. *)
Definition stored (f : file) : outcome json :=
  match f with
  | NoFile | NotJson => Val (JObj [])
  | Unreadable msg => Raised (OSError msg)
  | JsonDoc v => Val v
  end.

(** The store after the entry of [name] is merged into it. *)
Definition merge_entry (name mcp_url : string) (config : json) : outcome json :=
  match config with
  | JObj top =>
      let key := servers_key_of top in
      match dict_get key top with
      | None =>
          Val (JObj (dict_set key (JObj [(name, server_entry mcp_url)])
                       (dict_set key (JObj []) top)))
      | Some (JObj d) =>
          Val (JObj (dict_set key (JObj (dict_set name (server_entry mcp_url) d))
                       top))
      | Some v => Raised (TypeError v)
      end
  | _ => Raised (TypeError config)
  end.

(** The writer as one step on the file. *)
Definition write_step (h : host) (mcp_url name : string) (s : state)
  : outcome unit * state :=
  match mkdir_error h with
  | Some e => (Raised e, s)
  | None =>
      match stored (config s) with
      | Val v =>
          match merge_entry name mcp_url v with
          | Val v' =>
              match write_error h with
              | Some e => (Raised e, s)
              | None => (Val tt, State (JsonDoc v') (stdout s) (stderr s))
              end
          | Returned c => (Returned c, s)
          | Raised e => (Raised e, s)
          end
      | Returned c => (Returned c, s)
      | Raised e => (Raised e, s)
      end
  end.

(** The three parts of [configure] of the unified tool, in the order of
    its text. *)
Definition claude_part (h : host) (tool mcp_url : string)
  : M (list string * list string) :=
  if one_of tool ["claude"; "both"] then
    if negb (Unified.has_claude_cli h) then
      eprint (Text "Error: Claude CLI not found. Cannot configure Claude.");;
      if String.eqb tool "claude" then return_ 1 else ret ([], [])
    else
      try_except
        ('(success, manual_cmd) ← Unified.configure_claude h mcp_url;
         if success : bool then ret ([] ++ ["Claude Code CLI"], [])
         else
           let manual_commands := [] ++ [Unified.manual_block manual_cmd] in
           if String.eqb tool "claude" then
             print (Text (default "" (head manual_commands)));;
             return_ 0
           else ret ([], manual_commands))
        is_CalledProcessError
        (fun e =>
           eprint (Line [Lit "Error: Failed to configure Claude CLI: "; OfExn e]);;
           if String.eqb tool "claude" then return_ 1 else ret ([], []))
  else ret ([], []).

Definition copilot_part (h : host) (tool mcp_url : string)
    (configured_for : list string) : M (list string) :=
  if one_of tool ["copilot"; "both"] then
    try_except
      (Unified.configure_copilot h mcp_url;;
       ret (configured_for ++ ["GitHub Copilot"]))
      is_Exception
      (fun e =>
         eprint (Line [Lit "Error: Failed to configure GitHub Copilot: "; OfExn e]);;
         if String.eqb tool "copilot" then return_ 1 else ret configured_for)
  else ret configured_for.

Definition summary_part (mcp_url : string) (config_file : path)
    (configured_for manual_commands : list string) : M unit :=
  match configured_for, manual_commands with
  | [], [] =>
      eprint (Text "Error: No tools were configured.");;
      return_ 1
  | _, _ =>
      when (negb (bool_decide (configured_for = [])))
        (print (Text "Dataverse MCP server registered successfully.");;
         print (Text ("  Server URL     : " +:+ mcp_url));;
         print (Text ("  Configured for : " +:+ Py.join ", " configured_for));;
         when (existsb (String.eqb "GitHub Copilot") configured_for)
           (print (Line [Lit "  Copilot config : "; OfPath config_file])));;
      when (negb (bool_decide (manual_commands = [])))
        (print (Text (nl +:+ str_repeat "=" 80));;
         print (Text "MANUAL CONFIGURATION REQUIRED");;
         print (Text (str_repeat "=" 80));;
         for_each manual_commands (fun cmd _ => print (Text cmd)) tt);;
      return_ 0
  end.

(** The URL that the reader takes from an entry of the configuration file,
    if any, and the entries it can read at all. *)
Definition entry_url (v : json) : option string :=
  match v with
  | JObj e =>
      match dict_get_default "url" (JStr "") e with
      | JStr raw =>
          let url := Py.rstrip "/" raw in
          if Py.startswith "https://" url then Some url else None
      | _ => None
      end
  | _ => None
  end.

Definition entry_readable (v : json) : bool :=
  match v with
  | JObj e =>
      match dict_get_default "url" (JStr "") e with
      | JStr _ => true
      | _ => false
      end
  | _ => false
  end.

(** The mapping whose entries the reader goes through. *)
Definition read_servers (top : list (string * json)) : json :=
  dict_get_default "mcpServers" (dict_get_default "servers" (JObj []) top) top.

Definition all_https (urls : gset string) : Prop :=
  forall u, u ∈ urls -> Py.startswith "https://" u = true.

(** The URLs that the first source of the unified reader contributes. *)
Definition claude_urls (h : host) : gset string :=
  if which h "claude" then
    match claude_mcp_list h with
    | Within (Exited rc out _) =>
        if (rc =? 0)%Z
        then list_to_set (Py.rstrip Unified.url_trailing <$> Py.findall_https out)
        else ∅
    | _ => ∅
    end
  else ∅.

Definition production_url : string :=
  "https://api.powerapps.com/providers/Microsoft.PowerApps/environments?api-version=2016-11-01".
Definition tip_url : string :=
  "https://tip1.api.bap.microsoft.com/providers/Microsoft.BusinessAppPlatform/scopes/admin/environments?api-version=2023-06-01".

(** The quiet host, except that the management API refuses the request. *)
Definition host_http_forbidden : host :=
  {| is_windows := false; env_userprofile := None; home_dir := "/home/u";
     env_usetip := None; which := fun _ => true;
     az_account_show := Within (Exited 0 "" "");
     az_login := Exited 0 "" "";
     az_get_access_token := Within (Exited 0 "tok" "");
     http_get := fun _ _ => HttpRaises (HTTPError 403);
     claude_mcp_list := Within (Exited 0 "" "");
     claude_mcp_add := fun _ => Exited 0 "" "";
     mkdir_error := None; write_error := None |}.

(** The entries of [sample_config], and a store that holds both keys. *)
Definition sample_entries : list (string * json) :=
  [("x", JObj [("type", JStr "http"); ("url", JStr "https://b.example/")]);
   ("y", JObj [("url", JStr "https://a.example")])].

Definition both_keys_store : list (string * json) :=
  [("servers", JObj [("github", server_entry "https://gh.example/mcp")]);
   ("mcpServers", JObj [("old", server_entry "https://old.example/")])].

(** * Properties *)

(** ** Strings *)

Section StringFacts.

Lemma lower_char_not_capital_C (a : ascii) :
  Ascii.eqb "C" (Py.lower_char a) = false.
Proof. destruct a as [[] [] [] [] [] [] [] []]; vm_compute; reflexivity. Qed.

Lemma lower_has_no_capital_C (s : string) :
  Py.mem_char "C" (Py.lower s) = false.
Proof.
  induction s as [|a s IH]; [reflexivity|].
  cbn [Py.lower Py.mem_char]. now rewrite lower_char_not_capital_C, IH.
Qed.

Lemma prefix_mem_char (c : ascii) (p s : string) :
  String.prefix p s = true -> Py.mem_char c p = true -> Py.mem_char c s = true.
Proof.
  revert s; induction p as [|a p IH]; intros [|b s]; cbn; try discriminate.
  destruct (ascii_dec a b) as [->|]; [|discriminate].
  intros Hp. destruct (Ascii.eqb c b); [reflexivity|]. cbn. eauto.
Qed.

Lemma contains_mem_char (c : ascii) (needle hay : string) :
  Py.contains needle hay = true ->
  Py.mem_char c needle = true -> Py.mem_char c hay = true.
Proof.
  induction hay as [|b hay IH]; cbn [Py.contains].
  - rewrite orb_false_r. apply prefix_mem_char.
  - intros [Hp|Hc]%orb_true_iff Hn; [eauto using prefix_mem_char|].
    cbn. destruct (Ascii.eqb c b); [reflexivity|]. cbn. eauto.
Qed.

(** The first phrase that [configure_claude] looks for holds capital
    letters, and the text it is looked for in has been lowered: the test
    never succeeds. *)
Lemma nested_session_phrase_never_found (s : string) :
  Py.contains "cannot be launched inside another Claude Code session"
    (Py.lower s) = false.
Proof.
  destruct (Py.contains _ _) eqn:H; [|reflexivity].
  apply (contains_mem_char "C") in H; [|reflexivity].
  now rewrite lower_has_no_capital_C in H.
Qed.

End StringFacts.

(** ** The configuration writer of the unified tool *)

Ltac py_unfold :=
  unfold bind, ret, return_, raise, try_except, print, eprint, when, run,
    run_timed in *.

Section ConfigureClaude.
Variable h : host.
Variables (org_url : string) (endpoint_type : option string).
Let mcp_url := Unified.build_mcp_url org_url (default "ga" endpoint_type).
Variables (rc : Z) (out err : string).
Hypothesis claude_found : which h "claude" = true.
Hypothesis add_fails : claude_mcp_add h mcp_url = Exited rc out err.
Hypothesis add_code : rc ≠ 0%Z.

(** A failure of [claude mcp add] whose output speaks of a program that is
    already running: the manual command is printed and the exit code is 0. *)
Lemma configure_claude_already_running (s : state) :
  Py.contains "already running" (Py.lower (err +:+ out)) = true ->
  Unified.configure h org_url endpoint_type (Some "claude") s
  = (Returned 0,
     State (config s)
       (stdout s ++ [Text (Unified.manual_block
                             (Some (Unified.manual_command mcp_url)))])
       (stderr s)).
Proof using claude_found add_fails add_code.
  intros Hrun. unfold Unified.configure, Unified.get_copilot_config_path.
  destruct (Common.get_copilot_config_path h) as [config_file display_path].
  cbn [default one_of existsb String.eqb Ascii.eqb Bool.eqb orb negb].
  unfold Unified.has_claude_cli, Unified.configure_claude. rewrite claude_found.
  py_unfold. fold mcp_url. rewrite add_fails.
  assert ((rc =? 0)%Z = false) as -> by lia.
  cbn. rewrite Hrun, orb_true_r. reflexivity.
Qed.

(** Any other failure of [claude mcp add] is fatal when only the Claude CLI
    was asked for, whatever the output says about nested sessions. *)
Lemma configure_claude_failure_is_fatal (s : state) :
  Py.contains "already running" (Py.lower (err +:+ out)) = false ->
  Unified.configure h org_url endpoint_type (Some "claude") s
  = (Returned 1,
     State (config s) (stdout s)
       (stderr s ++ [Line [Lit "Error: Failed to configure Claude CLI: ";
                           OfExn (CalledProcessError rc out err)]])).
Proof using claude_found add_fails add_code.
  intros Hrun. unfold Unified.configure, Unified.get_copilot_config_path.
  destruct (Common.get_copilot_config_path h) as [config_file display_path].
  cbn [default one_of existsb String.eqb Ascii.eqb Bool.eqb orb negb].
  unfold Unified.has_claude_cli, Unified.configure_claude. rewrite claude_found.
  py_unfold. fold mcp_url. rewrite add_fails.
  assert ((rc =? 0)%Z = false) as -> by lia.
  cbn. rewrite Hrun, nested_session_phrase_never_found. reflexivity.
Qed.

(** The test of [configure_claude] as it is written: it succeeds exactly
    when the second phrase is found. *)
Lemma configure_claude_known_phrase (s : state) :
  Py.contains "cannot be launched inside another Claude Code session"
    (Py.lower (err +:+ out))
  || Py.contains "already running" (Py.lower (err +:+ out)) = true ->
  Unified.configure h org_url endpoint_type (Some "claude") s
  = (Returned 0,
     State (config s)
       (stdout s ++ [Text (Unified.manual_block
                             (Some (Unified.manual_command mcp_url)))])
       (stderr s)).
Proof using claude_found add_fails add_code.
  rewrite nested_session_phrase_never_found. cbn [orb].
  apply configure_claude_already_running.
Qed.

End ConfigureClaude.

(** [print_manual_instructions] cannot print: the global it reads is not
    bound in the module. *)
Lemma print_manual_instructions_raises (mcp_url display_path : string)
    (s : state) :
  Unified.print_manual_instructions mcp_url display_path s
  = (Raised (NameError "OAUTH_CLIENT_ID"), s).
Proof. reflexivity. Qed.

(** C1.  The claim: when [claude mcp add] fails and its output holds a
    nested-session phrase, [configure] for the Claude CLI alone prints the
    manual command and exits with 0.  The code does otherwise on what the
    CLI prints for a nested session: it exits with 1, with nothing on the
    standard output. *)
Theorem configure_nested_session_exits_1 :
  Unified.configure nested_session_host "https://acme.crm.dynamics.com"
    None (Some "claude") (start NoFile)
  = (Returned 1,
     State NoFile []
       [Line [Lit "Error: Failed to configure Claude CLI: ";
              OfExn (CalledProcessError 1 "" nested_session_message)]]).
Proof. vm_compute. reflexivity. Qed.

(** The same run when the output says that the program is already
    running. *)
Example configure_already_running_exits_0 :
  Unified.configure already_running_host "https://acme.crm.dynamics.com"
    None (Some "claude") (start NoFile)
  = (Returned 0,
     State NoFile
       [Text (Unified.manual_block
                (Some (Unified.manual_command
                         "https://acme.crm.dynamics.com/api/mcp")))]
       []).
Proof. vm_compute. reflexivity. Qed.

(** C2, as stated, fails: without the Claude CLI and with a configuration
    file that cannot be written, [configure] for both tools prints nothing
    on the standard output and exits with 1. *)
Lemma configure_both_unavailable_fails :
  let r := Unified.configure bare_host "https://acme.crm.dynamics.com"
             None (Some "both") (start NoFile) in
  exit_status (fst r) = 1%Z /\ stdout (snd r) = [] /\ exit_status (fst r) ≠ 0%Z.
Proof. vm_compute. repeat split; discriminate. Qed.

(** C2, amended.  Without the Claude CLI, when [configure_copilot] raises
    [e], [configure] for both tools writes three diagnostics to the error
    stream, the last one saying that no tool was configured, leaves the
    standard output as it was and returns 1. *)
Theorem configure_both_unavailable (h : host) (org_url : string)
    (endpoint_type : option string) (s s' : state) (e : exn) :
  which h "claude" = false ->
  Unified.configure_copilot h
    (Unified.build_mcp_url org_url (default "ga" endpoint_type))
    (State (config s) (stdout s)
       (stderr s ++ [Text "Error: Claude CLI not found. Cannot configure Claude."]))
  = (Raised e, s') ->
  Unified.configure h org_url endpoint_type (Some "both") s
  = (Returned 1,
     State (config s') (stdout s')
       (stderr s' ++ [Line [Lit "Error: Failed to configure GitHub Copilot: ";
                            OfExn e];
                      Text "Error: No tools were configured."])).
Proof.
  intros Hw Hc. unfold Unified.configure, Unified.get_copilot_config_path.
  destruct (Common.get_copilot_config_path h) as [config_file display_path].
  cbn [default one_of existsb String.eqb Ascii.eqb Bool.eqb orb negb].
  unfold Unified.has_claude_cli. rewrite Hw.
  unfold try_except, bind, eprint, ret, return_, Text in *. cbn.
  rewrite Hc. cbn. now rewrite <- app_assoc.
Qed.

Lemma configure_both_unavailable_witness :
  Unified.configure bare_host "https://acme.crm.dynamics.com" None (Some "both")
    (start NoFile)
  = (Returned 1,
     State NoFile []
       [Text "Error: Claude CLI not found. Cannot configure Claude.";
        Line [Lit "Error: Failed to configure GitHub Copilot: ";
              OfExn (OSError "Read-only file system")];
        Text "Error: No tools were configured."]).
Proof.
  apply (configure_both_unavailable bare_host "https://acme.crm.dynamics.com"
           None (start NoFile)
           (State NoFile []
              [Text "Error: Claude CLI not found. Cannot configure Claude."])
           (OSError "Read-only file system")); reflexivity.
Defined.

(** ** The environment lister of the Copilot-only tool *)

(** C3.  In the per-organization variant the module never binds [shutil],
    so [list_environments] raises [NameError] at its first statement, on
    every host and in every state: it prints nothing, it returns no exit
    code of its own, and the process ends with status 1 through the
    unhandled exception. *)
Theorem per_org_list_environments_raises (h : host) (s : state) :
  existsb (String.eqb "shutil") PerOrg.globals = false
  /\ PerOrg.list_environments h s = (Raised (NameError "shutil"), s)
  /\ PerOrg.main h PerOrg.ListEnvironments s = (Raised (NameError "shutil"), s)
  /\ (forall code, fst (PerOrg.list_environments h s) ≠ Returned code)
  /\ exit_status (fst (PerOrg.main h PerOrg.ListEnvironments s)) = 1%Z.
Proof.
  assert (H : PerOrg.list_environments h s = (Raised (NameError "shutil"), s))
    by reflexivity.
  repeat split; try exact H; try reflexivity.
  intros code. rewrite H. discriminate.
Qed.

(** The unified tool imports [shutil]; there the same text goes on to look
    for the Azure CLI. *)
Example unified_list_environments_runs :
  Unified.list_environments bare_host (start NoFile)
  = (Returned 1,
     State NoFile []
       [Text "Error: Azure CLI (az) is not installed. Install it from https://aka.ms/installazurecli"]).
Proof. vm_compute. reflexivity. Qed.

(** ** The endpoint URL *)

(** C5.  For every organization URL the endpoint URL is the organization
    URL followed by [/api/mcp_preview] for the endpoint type [preview], and
    by [/api/mcp] for [ga] and for an omitted endpoint type; every endpoint
    type gives one of the two.  This is the URL that [configure] registers,
    in both variants. *)
Theorem endpoint_url_derivation (org_url : string) :
  Unified.build_mcp_url org_url "preview" = org_url +:+ "/api/mcp_preview"
  /\ Unified.build_mcp_url org_url "ga" = org_url +:+ "/api/mcp"
  /\ PerOrg.build_mcp_url org_url "preview" = org_url +:+ "/api/mcp_preview"
  /\ PerOrg.build_mcp_url org_url "ga" = org_url +:+ "/api/mcp"
  /\ (forall endpoint_type,
        Unified.build_mcp_url org_url endpoint_type
          = PerOrg.build_mcp_url org_url endpoint_type
        /\ (Unified.build_mcp_url org_url endpoint_type = org_url +:+ "/api/mcp"
            \/ Unified.build_mcp_url org_url endpoint_type
               = org_url +:+ "/api/mcp_preview"))
  /\ (let entry suffix name :=
        JsonDoc (JObj [("mcpServers",
                        JObj [(name, JObj [("type", JStr "http");
                                           ("url", JStr (org_url +:+ suffix))])])]) in
      config (snd (Unified.configure quiet_host org_url (Some "preview")
                     (Some "copilot") (start NoFile)))
        = entry "/api/mcp_preview" Unified.SERVER_NAME
      /\ config (snd (Unified.configure quiet_host org_url (Some "ga")
                        (Some "copilot") (start NoFile)))
        = entry "/api/mcp" Unified.SERVER_NAME
      /\ config (snd (Unified.configure quiet_host org_url None
                        (Some "copilot") (start NoFile)))
        = entry "/api/mcp" Unified.SERVER_NAME
      /\ config (snd (PerOrg.configure quiet_host org_url (Some "preview")
                        (start NoFile)))
        = entry "/api/mcp_preview" (PerOrg.get_server_name org_url)
      /\ config (snd (PerOrg.configure quiet_host org_url (Some "ga")
                        (start NoFile)))
        = entry "/api/mcp" (PerOrg.get_server_name org_url)
      /\ config (snd (PerOrg.configure quiet_host org_url None (start NoFile)))
        = entry "/api/mcp" (PerOrg.get_server_name org_url)).
Proof.
  repeat split; try reflexivity.
  unfold Unified.build_mcp_url.
  destruct (String.eqb endpoint_type "preview"); auto.
Qed.

(** ** Dictionaries *)

Section Dict.
Implicit Types (k : string) (v : json) (d : list (string * json)).

Lemma dict_get_set_eq k v d : dict_get k (dict_set k v d) = Some v.
Proof.
  induction d as [|[k' v'] d IH]; cbn.
  - now rewrite String.eqb_refl.
  - destruct (String.eqb k k') eqn:E; cbn; rewrite ?String.eqb_refl, ?E; auto.
Qed.

Lemma dict_get_set_ne k k' v d :
  k' ≠ k -> dict_get k' (dict_set k v d) = dict_get k' d.
Proof.
  intros Hne. induction d as [|[k2 v2] d IH]; cbn.
  - apply String.eqb_neq in Hne. now rewrite Hne.
  - destruct (String.eqb k k2) eqn:E; cbn.
    + apply String.eqb_eq in E as <-. apply String.eqb_neq in Hne. now rewrite Hne.
    + now rewrite IH.
Qed.

Lemma dict_has_set k k' v d :
  dict_has k' (dict_set k v d) = String.eqb k' k || dict_has k' d.
Proof.
  unfold dict_has. destruct (String.eqb k' k) eqn:E.
  - apply String.eqb_eq in E as ->. now rewrite dict_get_set_eq.
  - apply String.eqb_neq in E. now rewrite dict_get_set_ne.
Qed.
End Dict.

(** ** The merge write of the configuration store *)

(** C4.  For a configuration store (a JSON object whose servers key, when
    it has one, holds an object) that can be written, [configure_copilot]
    rewrites the file so that: the servers key is the one the store had,
    [servers] when present and [mcpServers] otherwise; the entry of the new
    server is stored under that key; every other entry under it is as it
    was; and so is every other key of the store.  The writer of the unified
    tool is the same function at the fixed server name. *)
Theorem merge_write_preserves (h : host) (mcp_url name : string)
    (top : list (string * json)) (s : state) :
  mkdir_error h = None -> write_error h = None ->
  config s = JsonDoc (JObj top) ->
  (forall v, dict_get (servers_key_of top) top = Some v -> exists d, v = JObj d) ->
  Unified.configure_copilot h mcp_url s
    = PerOrg.configure_copilot h mcp_url Unified.SERVER_NAME s
  /\ exists top',
    PerOrg.configure_copilot h mcp_url name s
      = (Val tt, State (JsonDoc (JObj top')) (stdout s) (stderr s))
    /\ servers_key_of top' = servers_key_of top
    /\ (exists d', dict_get (servers_key_of top) top' = Some (JObj d'))
    /\ dict_get name (entries_of top') = Some (server_entry mcp_url)
    /\ (forall k, k ≠ name ->
          dict_get k (entries_of top') = dict_get k (entries_of top))
    /\ (forall k, k ≠ servers_key_of top -> dict_get k top' = dict_get k top).
Proof.
  intros Hmk Hwr Hcfg Hshape.
  split; [reflexivity|].
  unfold PerOrg.configure_copilot, mkdir_parents, dump_config, load_config.
  rewrite Hmk, Hwr. unfold try_except, bind, ret. rewrite Hcfg. cbn.
  unfold entries_of, servers_key_of in *.
  destruct (dict_has "servers" top) eqn:Hs; cbn.
  - rewrite Hs. cbn. unfold dict_has in Hs.
    destruct (dict_get "servers" top) as [v|] eqn:Hg; [|discriminate].
    destruct (Hshape v eq_refl) as [d ->]. cbn.
    eexists. split; [reflexivity|].
    rewrite dict_has_set. cbn.
    rewrite !dict_get_set_eq.
    repeat split; eauto using dict_get_set_eq, dict_get_set_ne.
  - destruct (dict_has "mcpServers" top) eqn:Hm; cbn.
    + unfold dict_has in Hm.
      destruct (dict_get "mcpServers" top) as [v|] eqn:Hg; [|discriminate].
      destruct (Hshape v eq_refl) as [d ->]. cbn.
      eexists. split; [reflexivity|].
      rewrite dict_has_set, Hs. cbn.
      rewrite !dict_get_set_eq.
      repeat split; eauto using dict_get_set_eq, dict_get_set_ne.
    + rewrite dict_get_set_eq. cbn.
      eexists. split; [reflexivity|].
      rewrite !dict_has_set, Hs. cbn.
      rewrite !dict_get_set_eq.
      unfold dict_has in Hm. destruct (dict_get "mcpServers" top); [discriminate|].
      repeat split; eauto.
      * cbn. now rewrite String.eqb_refl.
      * intros k Hk. cbn. apply String.eqb_neq in Hk. now rewrite Hk.
      * intros k Hk. now rewrite !dict_get_set_ne.
Qed.

(** A missing file and a file that is not JSON count as an empty store. *)
Lemma merge_write_fresh (h : host) (mcp_url name : string) (s : state) :
  mkdir_error h = None -> write_error h = None ->
  config s = NoFile \/ config s = NotJson ->
  PerOrg.configure_copilot h mcp_url name s
  = (Val tt,
     State (JsonDoc (JObj [("mcpServers", JObj [(name, server_entry mcp_url)])]))
       (stdout s) (stderr s)).
Proof.
  intros Hmk Hwr Hcfg.
  unfold PerOrg.configure_copilot, mkdir_parents, dump_config, load_config.
  rewrite Hmk, Hwr. unfold try_except, bind, ret.
  now destruct Hcfg as [-> | ->].
Qed.

(** A servers key that holds something else than an object stops the
    writer before it touches the file. *)
Example merge_write_servers_list :
  PerOrg.configure_copilot quiet_host "https://acme.crm.dynamics.com/api/mcp"
    "DataverseMcpacme" (start (JsonDoc (JObj [("servers", JArr [])])))
  = (Raised (TypeError (JArr [])), start (JsonDoc (JObj [("servers", JArr [])]))).
Proof. reflexivity. Qed.

Lemma merge_write_preserves_witness :
  exists top',
    PerOrg.configure_copilot quiet_host "https://acme.crm.dynamics.com/api/mcp"
      "DataverseMcpacme"
      (start (JsonDoc (JObj [("servers",
                              JObj [("github", server_entry "https://gh/mcp")])])))
    = (Val tt, State (JsonDoc (JObj top')) [] [])
    /\ servers_key_of top' = "servers"
    /\ dict_get "github" (entries_of top') = Some (server_entry "https://gh/mcp")
    /\ dict_get "mcpServers" top' = None.
Proof.
  destruct (merge_write_preserves quiet_host
              "https://acme.crm.dynamics.com/api/mcp" "DataverseMcpacme"
              [("servers", JObj [("github", server_entry "https://gh/mcp")])]
              (start (JsonDoc (JObj [("servers",
                        JObj [("github", server_entry "https://gh/mcp")])]))))
    as (_ & top' & Hrun & Hkey & _ & _ & Hkeep & Hother);
    [reflexivity | reflexivity | reflexivity
    | intros v [= <-]; eexists; reflexivity |].
  exists top'. split; [exact Hrun|]. split; [exact Hkey|].
  split; [now rewrite Hkeep | now rewrite Hother].
Defined.

(** ** The filter step of the environment lister *)

Lemma app_cons (a : ascii) (t u : string) : String a t +:+ u = String a (t +:+ u).
Proof. reflexivity. Qed.

Lemma rstrip_by_last (p : ascii -> bool) (s t : string) (c : ascii) :
  Py.rstrip_by p s = t +:+ String c "" -> p c = false.
Proof.
  revert t; induction s as [|a s IH]; intros t; cbn [Py.rstrip_by].
  - destruct t; discriminate.
  - destruct (Py.rstrip_by p s) as [|b r] eqn:Hr.
    + destruct (p a) eqn:Hp; [destruct t; discriminate|].
      destruct t as [|a' t]; [intros [= <-]; exact Hp|].
      rewrite app_cons. intros [= _ H]. destruct t; discriminate.
    + destruct t as [|a' t]; [discriminate|].
      rewrite app_cons. intros [= _ H]. eauto.
Qed.

Lemma rstrip_no_trailing_slash (s t : string) : Py.rstrip "/" s ≠ t +:+ "/".
Proof.
  intros H. apply rstrip_by_last in H. discriminate.
Qed.

Ltac spec_side :=
  unfold spec_environments, is_dataverse, projection, display_name,
    trimmed_instance_url, database_type, record_properties;
  repeat first
    [ progress cbn [List.filter map negb andb]
    | match goal with H : ?x = _ |- context [?x] => rewrite H end ];
  rewrite ?app_nil_r.

Lemma filter_record_cases (e : json) (envs : list json) (s : state) :
  if record_well_shaped e
  then Common.filter_record e envs s = (Val (envs ++ spec_environments [e]), s)
  else exists ex, Common.filter_record e envs s = (Raised ex, s).
Proof.
  unfold Common.filter_record, record_well_shaped.
  unfold py_get, py_rstrip, bind, ret, raise.
  destruct e as [| | | |l|d]; try (eexists; reflexivity).
  destruct (dict_get_default "properties" (JObj []) d) as [| | | |l|p] eqn:Hp;
    try (eexists; reflexivity).
  destruct (json_eq_str (dict_get_default "databaseType" JNull p) "CommonDataService")
    eqn:Hdb; cbn [negb]; [|spec_side; reflexivity].
  destruct (dict_get_default "linkedEnvironmentMetadata" (JObj []) p) as [| | | |l|m]
    eqn:Hl; try (eexists; reflexivity).
  destruct (dict_get_default "instanceUrl" (JStr "") m) as [| | |u| |] eqn:Hu;
    try (eexists; reflexivity).
  destruct (String.eqb (Py.rstrip "/" u) "") eqn:He; cbn [negb]; spec_side; reflexivity.
Qed.

Lemma filter_records_cases (records envs : list json) (s : state) :
  if forallb record_well_shaped records
  then for_each records Common.filter_record envs s
       = (Val (envs ++ spec_environments records), s)
  else exists ex, for_each records Common.filter_record envs s = (Raised ex, s).
Proof.
  revert envs; induction records as [|e records IH]; intros envs.
  - cbn. unfold ret. now rewrite app_nil_r.
  - cbn [forallb for_each]. unfold bind.
    pose proof (filter_record_cases e envs s) as He.
    destruct (record_well_shaped e); cbn [andb].
    + rewrite He. specialize (IH (envs ++ spec_environments [e])).
      destruct (forallb record_well_shaped records).
      * rewrite IH, <- app_assoc. do 2 f_equal.
        unfold spec_environments. cbn. now destruct (is_dataverse e).
      * exact IH.
    + destruct He as [ex ->]. eauto.
Qed.

Lemma filter_environments_cases (data : json) (s : state) :
  if response_well_shaped data
  then Common.filter_environments data s
       = (Val (spec_environments (response_records data)), s)
  else exists ex, Common.filter_environments data s = (Raised ex, s).
Proof.
  unfold Common.filter_environments, response_well_shaped, response_records,
    py_get, py_iter, bind, ret, raise.
  destruct data as [| | | |l|d]; try (eexists; reflexivity).
  destruct (dict_get_default "value" (JArr []) d) as [| | |v|l|kvs];
    try (eexists; reflexivity); apply (filter_records_cases _ []).
Qed.

Lemma json_eq_str_true (v : json) (s : string) :
  json_eq_str v s = true -> v = JStr s.
Proof.
  destruct v; cbn; try discriminate. now intros ->%String.eqb_eq.
Qed.

Lemma trimmed_instance_url_no_slash (r : json) (t : string) :
  trimmed_instance_url r ≠ t +:+ "/".
Proof.
  unfold trimmed_instance_url.
  repeat case_match; try (destruct t; discriminate).
  apply rstrip_no_trailing_slash.
Qed.

(** C6.  For every response of the management API: when the response is
    well shaped the filter step returns a list, and whenever it returns a
    list, that list is exactly the projections to [displayName] and
    [instanceUrl] of the records whose [databaseType] is
    [CommonDataService] and whose instance URL is not empty once its
    trailing slashes are trimmed, in the order of the response.  So every
    element of the list comes from a record with that [databaseType], and
    no [instanceUrl] of the list is empty or ends with a slash. *)
Theorem filter_environments_exact (data : json) (s : state) :
  (response_well_shaped data = true ->
     Common.filter_environments data s
     = (Val (spec_environments (response_records data)), s))
  /\ (forall envs s',
        Common.filter_environments data s = (Val envs, s') ->
        s' = s /\ envs = spec_environments (response_records data))
  /\ (forall e,
        In e (spec_environments (response_records data)) ->
        exists r,
          In r (response_records data)
          /\ database_type r = JStr "CommonDataService"
          /\ e = JObj [("displayName", display_name r);
                       ("instanceUrl", JStr (trimmed_instance_url r))]
          /\ trimmed_instance_url r ≠ ""
          /\ forall t, trimmed_instance_url r ≠ t +:+ "/").
Proof.
  pose proof (filter_environments_cases data s) as H.
  split; [|split].
  - intros Hw. now rewrite Hw in H.
  - intros envs s' Hrun. destruct (response_well_shaped data).
    + rewrite H in Hrun. now injection Hrun as <- <-.
    + destruct H as [ex H]. rewrite H in Hrun. discriminate.
  - intros e (r & <- & [Hr [Hdb Hurl]%andb_true_iff]%filter_In)%in_map_iff.
    exists r. repeat split; auto using json_eq_str_true,
      trimmed_instance_url_no_slash.
    intros Hempty. rewrite Hempty in Hurl. discriminate.
Qed.

Lemma filter_environments_exact_witness :
  Common.filter_environments sample_response (start NoFile)
  = (Val [JObj [("displayName", JStr "Acme");
                ("instanceUrl", JStr "https://acme.crm.dynamics.com")]],
     start NoFile).
Proof.
  exact (proj1 (filter_environments_exact sample_response (start NoFile))
           eq_refl).
Defined.

(** ** The environment lister of the unified tool *)

(** C7.  When the lister gets as far as the filter step (the Azure CLI is
    there, a session is ready, a token is issued and the management API
    answers with [data]) and the filtered list is empty, it returns 1,
    writes its diagnostic to the error stream and leaves the standard
    output as it was. *)
Theorem empty_environment_list_fails (h : host) (s : state)
    (token_out token_err : string) (data : json) :
  which h "az" = true ->
  session_ready h = true ->
  az_get_access_token h = Within (Exited 0 token_out token_err) ->
  http_get h (Common.api_url h) (Py.strip token_out) = HttpJson data ->
  fst (Common.filter_environments data s) = Val [] ->
  Unified.list_environments h s
  = (Returned 1,
     State (config s) (stdout s)
       (stderr s ++ [Text "No Dataverse (CommonDataService) environments were found for this account."])).
Proof.
  intros Haz Hsess Htok Hhttp Hempty.
  assert (Hf : Common.filter_environments data s = (Val [], s)).
  { pose proof (filter_environments_cases data s) as H.
    destruct (response_well_shaped data).
    - rewrite H in Hempty |- *. cbn in Hempty. congruence.
    - destruct H as [ex H]. rewrite H in Hempty. discriminate. }
  unfold Unified.list_environments, Common.list_environments.
  assert (global_ Unified.globals "shutil" = ret tt) as -> by reflexivity.
  unfold bind at 1. unfold ret at 1. rewrite Haz. cbn [negb].
  unfold session_ready, login_succeeds in Hsess.
  assert (Hsession :
    try_except (bind (run_timed true (az_account_show h)) (fun _ => ret tt))
      (fun e => is_CalledProcessError e || is_TimeoutExpired e)
      (fun _ => try_except (bind (run true (az_login h)) (fun _ => ret tt))
                  is_CalledProcessError
                  (fun _ => bind (eprint (Text "Error: Azure login failed."))
                              (fun _ => return_ 1))) s
    = (Val tt, s)).
  { unfold try_except, bind, ret, raise, run_timed, run.
    destruct (az_account_show h) as [[rc o e|]|]; try discriminate.
    - destruct (rc =? 0)%Z; cbn in *; [reflexivity|].
      destruct (az_login h) as [rc' o' e'|]; try discriminate.
      now rewrite Hsess.
    - cbn. destruct (az_login h) as [rc' o' e'|]; try discriminate.
      now rewrite Hsess. }
  unfold bind at 1. rewrite Hsession.
  unfold bind at 1. unfold try_except at 1. unfold bind at 1.
  unfold run_timed, run. rewrite Htok. cbn [andb negb Z.eqb].
  unfold ret at 1. unfold ret at 1. cbn [p_stdout].
  unfold bind at 1. unfold try_except at 1. rewrite Hhttp.
  unfold ret at 1. unfold bind at 1. rewrite Hf. reflexivity.
Qed.

Lemma empty_environment_list_fails_witness :
  Unified.list_environments (host_with_response barren_response) (start NoFile)
  = (Returned 1,
     State NoFile []
       [Text "No Dataverse (CommonDataService) environments were found for this account."]).
Proof.
  apply (empty_environment_list_fails (host_with_response barren_response)
           (start NoFile) (" tok" +:+ nl) "" barren_response); reflexivity.
Defined.

(** ** The server name of the Copilot-only tool *)

Section ServerName.
Implicit Types (label rest s p : string) (a b c : ascii).

Lemma app_nonempty c l r : l +:+ String c r ≠ "".
Proof. destruct l; discriminate. Qed.

Lemma rstrip_by_keeps (p : ascii -> bool) c (l r : string) :
  p c = false ->
  Py.rstrip_by p (l +:+ String c r) = l +:+ String c (Py.rstrip_by p r).
Proof.
  intros Hc. induction l as [|a l IH].
  - change ("" +:+ String c r) with (String c r). cbn [Py.rstrip_by].
    destruct (Py.rstrip_by p r); [now rewrite Hc|reflexivity].
  - rewrite !app_cons. cbn [Py.rstrip_by]. rewrite IH.
    destruct (l +:+ String c (Py.rstrip_by p r)) eqn:E; [|reflexivity].
    now apply app_nonempty in E.
Qed.

Lemma split_head_label label rest :
  is_label label = true -> Py.split_head "." (label +:+ String "." rest) = label.
Proof.
  induction label as [|a l IH]; [reflexivity|].
  cbn [is_label]. intros [Ha Hl]%andb_true_iff. rewrite app_cons.
  cbn [Py.split_head]. rewrite IH by exact Hl.
  destruct (Ascii.eqb a ".") eqn:E; [|reflexivity].
  apply Ascii.eqb_eq in E as ->. discriminate.
Qed.

Lemma prefix_nil s : String.prefix "" s = true.
Proof. now destruct s. Qed.

Lemma prefix_cons a p b s :
  String.prefix (String a p) (String b s) = Ascii.eqb a b && String.prefix p s.
Proof.
  cbn. destruct (ascii_dec a b) as [->|Hne].
  - now rewrite Ascii.eqb_refl.
  - apply Ascii.eqb_neq in Hne. now rewrite Hne.
Qed.

Ltac case_char :=
  match goal with
  | |- context [Ascii.eqb ?a ?b] =>
      is_var b; destruct (Ascii.eqb_spec a b) as [<-|]; cbn [andb];
      try reflexivity
  end.

Lemma label_has_no_scheme label rest :
  is_label label = true ->
  String.prefix "https://" (label +:+ String "." rest) = false
  /\ String.prefix "http://" (label +:+ String "." rest) = false.
Proof.
  intros Hl.
  destruct label as [|c1 [|c2 [|c3 [|c4 [|c5 [|c6 l]]]]]];
    rewrite ?app_cons; change ("" +:+ String "." rest) with (String "." rest);
    split; rewrite ?prefix_cons; repeat case_char; try reflexivity;
    cbn in Hl; rewrite ?andb_false_r in Hl; discriminate.
Qed.

Ltac scheme_step :=
  unfold Py.replace; rewrite ?app_cons;
  repeat (cbn [Py.replace_from]; rewrite ?prefix_cons, ?prefix_nil;
          cbn [Ascii.eqb Bool.eqb andb String.length Nat.sub]);
  reflexivity.
Lemma replace_https_scheme s : Py.replace "https://" "" ("https://" +:+ s) = Py.replace "https://" "" s.
Proof. scheme_step. Qed.
Lemma replace_https_keeps_http s : Py.replace "https://" "" ("http://" +:+ s) = "http://" +:+ Py.replace "https://" "" s.
Proof. scheme_step. Qed.
Lemma replace_http_scheme s : Py.replace "http://" "" ("http://" +:+ s) = Py.replace "http://" "" s.
Proof. scheme_step. Qed.

Lemma replace_label old label rest :
  old = "https://" \/ old = "http://" ->
  is_label label = true ->
  Py.replace old "" (label +:+ String "." rest)
  = label +:+ String "." (Py.replace old "" rest).
Proof.
  intros Hold. unfold Py.replace. induction label as [|a l IH]; intros Hl.
  - destruct Hold as [-> | ->]; reflexivity.
  - rewrite !app_cons. cbn [Py.replace_from].
    rewrite <- app_cons.
    assert (String.prefix old (String a l +:+ String "." rest) = false) as ->.
    { destruct (label_has_no_scheme (String a l) rest Hl).
      now destruct Hold as [-> | ->]. }
    cbn [is_label] in Hl. apply andb_true_iff in Hl as [_ Hl].
    now rewrite IH.
Qed.

End ServerName.

(** C8.  [get_server_name] maps [https://orgbc9a965c.crm10.dynamics.com]
    to [DataverseMcporgbc9a965c].  In general, for an organization URL made
    of a scheme, a first DNS label, a dot and anything after it (trailing
    slashes included), the organization name is that label and the server
    name is the prefix [DataverseMcp] followed by it. *)
Theorem server_name_is_prefix_and_first_label :
  PerOrg.get_server_name "https://orgbc9a965c.crm10.dynamics.com"
  = "DataverseMcporgbc9a965c"
  /\ forall scheme label rest,
       scheme = "https://" \/ scheme = "http://" ->
       is_label label = true ->
       PerOrg.extract_org_name (scheme +:+ label +:+ "." +:+ rest) = label
       /\ PerOrg.get_server_name (scheme +:+ label +:+ "." +:+ rest)
          = "DataverseMcp" +:+ label.
Proof.
  split; [reflexivity|].
  intros scheme label rest Hscheme Hlabel.
  assert (H : PerOrg.extract_org_name (scheme +:+ label +:+ "." +:+ rest) = label).
  { unfold PerOrg.extract_org_name.
    assert (Py.replace "http://" "" (Py.replace "https://" "" (scheme +:+ label +:+ "." +:+ rest))
            = label +:+ String "." (Py.replace "http://" "" (Py.replace "https://" "" rest))) as ->.
    { change (scheme +:+ label +:+ "." +:+ rest)
        with (scheme +:+ (label +:+ String "." rest)).
      destruct Hscheme as [-> | ->].
      - rewrite replace_https_scheme, !replace_label; auto.
      - rewrite replace_https_keeps_http, (replace_label "https://") by auto.
        rewrite replace_http_scheme, replace_label; auto. }
    unfold Py.rstrip. rewrite rstrip_by_keeps by reflexivity.
    now apply split_head_label. }
  split; [exact H|]. unfold PerOrg.get_server_name. now rewrite H.
Qed.

Lemma server_name_is_prefix_and_first_label_witness :
  PerOrg.get_server_name "https://acme.crm.dynamics.com/" = "DataverseMcpacme".
Proof.
  exact (proj2 (proj2 server_name_is_prefix_and_first_label
                  "https://" "acme" "crm.dynamics.com/"
                  (or_introl eq_refl) eq_refl)).
Defined.

(** ** The reader of the configured servers *)

Lemma for_each_state {A S : Type} (body : A -> S -> M S) (l : list A) :
  (forall x acc s, snd (body x acc s) = s) ->
  forall acc s, snd (for_each l body acc s) = s.
Proof.
  intros Hbody. induction l as [|x l IH]; intros acc s; [reflexivity|].
  cbn [for_each]. unfold bind. specialize (Hbody x acc s).
  destruct (body x acc s) as [[acc'|c|e] s']; cbn in Hbody; subst; auto.
Qed.

Lemma add_server_url_state (server : json) (urls : gset string) (s : state) :
  snd (Common.add_server_url server urls s) = s.
Proof.
  unfold Common.add_server_url, py_get, py_rstrip, bind, ret, raise.
  repeat case_match; simplify_eq/=; reflexivity.
Qed.

Lemma read_config_urls_state (urls : gset string) (s : state) :
  snd (Common.read_config_urls urls s) = s.
Proof.
  unfold Common.read_config_urls, try_except, bind, load_config.
  destruct (config s) as [|msg| |v]; try reflexivity.
  unfold py_get, py_values, ret, raise.
  destruct v as [| | | | |d]; try reflexivity.
  destruct (dict_get_default "mcpServers" _ d) as [| | | | |d']; try reflexivity.
  pose proof (for_each_state Common.add_server_url (map snd d')
                add_server_url_state urls s) as H.
  destruct (for_each _ _ _ _) as [[r|c|e] s']; cbn in H; subst; try reflexivity.
  now destruct (_ || _).
Qed.

Lemma sorted_is_sorted (urls : gset string) :
  Sorted String.le (Py.sorted urls)
  /\ NoDup (Py.sorted urls)
  /\ forall u, u ∈ Py.sorted urls <-> u ∈ urls.
Proof.
  unfold Py.sorted. split; [apply Sorted_merge_sort, _|].
  split.
  - rewrite merge_sort_Permutation. apply NoDup_elements.
  - intros u. rewrite merge_sort_Permutation. apply elem_of_elements.
Qed.

Lemma for_each_no_return {A S : Type} (body : A -> S -> M S) (l : list A) :
  (forall x acc s c, fst (body x acc s) ≠ Returned c) ->
  forall acc s c, fst (for_each l body acc s) ≠ Returned c.
Proof.
  intros Hbody. induction l as [|x l IH]; intros acc s c; [discriminate|].
  cbn [for_each]. unfold bind. specialize (Hbody x acc s).
  destruct (body x acc s) as [[acc'|c'|e] s']; cbn in *;
    [apply IH | apply Hbody | discriminate].
Qed.

Lemma add_server_url_no_return (server : json) (urls : gset string)
    (s : state) (c : Z) :
  fst (Common.add_server_url server urls s) ≠ Returned c.
Proof.
  unfold Common.add_server_url, py_get, py_rstrip, bind, ret, raise.
  destruct server as [| | | | |d]; try discriminate.
  destruct (dict_get_default "url" (JStr "") d); try discriminate.
  now destruct (Py.startswith _ _).
Qed.

Lemma read_config_urls_no_return (urls : gset string) (s : state) (c : Z) :
  fst (Common.read_config_urls urls s) ≠ Returned c.
Proof.
  unfold Common.read_config_urls, try_except, bind, load_config.
  destruct (config s) as [|msg| |v]; try discriminate.
  unfold py_get, py_values, ret, raise.
  destruct v as [| | | | |d]; try discriminate.
  destruct (dict_get_default "mcpServers" _ d) as [| | | | |d']; try discriminate.
  pose proof (for_each_no_return Common.add_server_url (map snd d')
                add_server_url_no_return urls s) as H.
  destruct (for_each _ _ _ _) as [[r|c'|e] s']; cbn in *;
    [discriminate | apply H |].
  destruct (_ || _); discriminate.
Qed.

(** The first source of the unified reader never raises and never touches
    the state: the reader goes on with some set of URLs. *)
Lemma first_source_never_fails (h : host) (tool : option string) (s : state) :
  exists urls0,
    Unified.get_configured_servers h tool s
    = finish_reader (default "both" tool) urls0 s.
Proof.
  unfold Unified.get_configured_servers, finish_reader.
  destruct (one_of (default "both" tool) ["claude"; "both"]
            && Unified.has_claude_cli h); [|now exists ∅].
  unfold bind at 1, try_except, bind at 1, run_timed, run.
  destruct (claude_mcp_list h) as [[rc out err|]|]; cbn [andb];
    try (now exists ∅).
  unfold ret at 1. cbn [returncode p_stdout].
  destruct (rc =? 0)%Z; eexists; reflexivity.
Qed.

Lemma finish_reader_file (tool : string) (urls0 : gset string) (s : state) :
  config (snd (finish_reader tool urls0 s)) = config s.
Proof.
  unfold finish_reader, bind, print, return_, ret.
  destruct (one_of tool ["copilot"; "both"]); [|reflexivity].
  pose proof (read_config_urls_state urls0 s) as H.
  destruct (Common.read_config_urls urls0 s) as [[u|c|e] s']; cbn in H; now subst.
Qed.

Lemma finish_reader_output (tool : string) (urls0 : gset string) (s : state)
    (code : Z) :
  fst (finish_reader tool urls0 s) = Returned code ->
  code = 0%Z
  /\ exists urls : gset string,
       snd (finish_reader tool urls0 s)
       = State (config s)
           (stdout s ++ [JsonDump None (JArr (JStr <$> Py.sorted urls))])
           (stderr s).
Proof.
  unfold finish_reader, bind, print, return_, ret.
  destruct (one_of tool ["copilot"; "both"]).
  - pose proof (read_config_urls_state urls0 s) as H.
    pose proof (read_config_urls_no_return urls0 s) as Hn.
    destruct (Common.read_config_urls urls0 s) as [[u|c|e] s'];
      cbn in *; subst; intros [= <-]; [eauto|].
    now destruct (Hn c).
  - cbn. intros [= <-]. eauto.
Qed.

Lemma read_config_urls_unreadable (urls : gset string) (s : state) (msg : string) :
  config s = Unreadable msg ->
  Common.read_config_urls urls s = (Raised (OSError msg), s).
Proof.
  intros H. unfold Common.read_config_urls, try_except, bind, load_config.
  now rewrite H.
Qed.

Lemma read_config_urls_absent (urls : gset string) (s : state) :
  config s = NoFile \/ config s = NotJson ->
  Common.read_config_urls urls s = (Val urls, s).
Proof.
  intros H. unfold Common.read_config_urls, try_except, bind, load_config.
  now destruct H as [-> | ->].
Qed.

Lemma get_configured_absent_file (h : host) (tool : option string) (s : state) :
  config s = NoFile \/ config s = NotJson ->
  exists urls : gset string,
    Unified.get_configured_servers h tool s
    = (Returned 0,
       State (config s)
         (stdout s ++ [JsonDump None (JArr (JStr <$> Py.sorted urls))])
         (stderr s)).
Proof.
  intros H. destruct (first_source_never_fails h tool s) as [urls0 ->].
  exists urls0. unfold finish_reader, bind.
  destruct (one_of _ _); [now rewrite read_config_urls_absent|reflexivity].
Qed.

(** C9.  The claim: whatever the state of the two sources (a missing,
    unreadable or malformed configuration file included), [get-configured]
    prints the sorted union and exits with 0.  The code does otherwise on a
    configuration file that exists and cannot be read, in both variants, and
    on a file that holds a JSON document which is not an object: the
    exception is not among those the reader swallows, nothing is printed
    and the process ends with status 1. *)
Theorem get_configured_unreadable_file (h : host) (msg : string) :
  Unified.get_configured_servers h None (start (Unreadable msg))
    = (Raised (OSError msg), start (Unreadable msg))
  /\ Unified.main h (Unified.GetConfigured "both") (start (Unreadable msg))
    = (Raised (OSError msg), start (Unreadable msg))
  /\ exit_status (fst (Unified.main h (Unified.GetConfigured "both")
                         (start (Unreadable msg)))) = 1%Z
  /\ PerOrg.get_configured_servers (start (Unreadable msg))
    = (Raised (OSError msg), start (Unreadable msg))
  /\ Unified.get_configured_servers h None (start (JsonDoc (JArr [])))
    = (Raised (AttributeError (JArr []) "get"), start (JsonDoc (JArr []))).
Proof.
  assert (H : forall tool, default "both" tool = "both" ->
            Unified.get_configured_servers h tool (start (Unreadable msg))
            = (Raised (OSError msg), start (Unreadable msg))).
  { intros tool Ht.
    destruct (first_source_never_fails h tool (start (Unreadable msg)))
      as [urls0 ->].
    rewrite Ht. unfold finish_reader, bind. cbn [one_of existsb String.eqb Ascii.eqb Bool.eqb orb].
    now rewrite (read_config_urls_unreadable urls0 _ msg). }
  split; [now apply H|]. split; [now apply (H (Some "both"))|].
  split; [unfold Unified.main; now rewrite (H (Some "both"))|].
  split; [reflexivity|].
  destruct (first_source_never_fails h None (start (JsonDoc (JArr []))))
    as [urls0 ->].
  reflexivity.
Qed.

(** C10.  For every content of the configuration file, the reader leaves
    the file as it found it, so a second run against it ends exactly as the
    first one did, with the same output; when the reader returns, it returns
    0 and its output is one JSON array, sorted by string value and free of
    duplicates.  This holds for the Copilot-only reader and, on any host and
    for any choice of tool, for the unified reader, which for the tool
    [copilot] is the Copilot-only reader. *)
Theorem reader_is_idempotent (f : file) :
  (let first := PerOrg.get_configured_servers (start f) in
   config (snd first) = f
   /\ PerOrg.get_configured_servers (start (config (snd first))) = first
   /\ forall code, fst first = Returned code ->
        code = 0%Z
        /\ exists urls : gset string,
             stdout (snd first) = [JsonDump None (JArr (JStr <$> Py.sorted urls))]
             /\ Sorted String.le (Py.sorted urls) /\ NoDup (Py.sorted urls))
  /\ forall (h : host) (tool : option string),
       let first := Unified.get_configured_servers h tool (start f) in
       config (snd first) = f
       /\ Unified.get_configured_servers h tool (start (config (snd first))) = first
       /\ (forall code, fst first = Returned code ->
             code = 0%Z
             /\ exists urls : gset string,
                  stdout (snd first)
                  = [JsonDump None (JArr (JStr <$> Py.sorted urls))]
                  /\ Sorted String.le (Py.sorted urls) /\ NoDup (Py.sorted urls))
       /\ (tool = Some "copilot" -> first = PerOrg.get_configured_servers (start f)).
Proof.
  assert (HP : PerOrg.get_configured_servers = finish_reader "copilot" ∅)
    by reflexivity.
  split.
  - cbn zeta. rewrite HP.
    pose proof (finish_reader_file "copilot" ∅ (start f)) as Hf. cbn in Hf.
    split; [exact Hf|]. split; [now rewrite Hf|].
    intros code Hc.
    destruct (finish_reader_output _ _ _ _ Hc) as (-> & urls & ->).
    split; [reflexivity|]. exists urls.
    split; [reflexivity|]. split; apply sorted_is_sorted.
  - intros h tool. cbn zeta.
    destruct (first_source_never_fails h tool (start f)) as [urls0 E].
    pose proof (finish_reader_file (default "both" tool) urls0 (start f)) as Hf.
    cbn in Hf. rewrite E.
    split; [exact Hf|]. split; [now rewrite Hf|]. split.
    + intros code Hc.
      destruct (finish_reader_output _ _ _ _ Hc) as (-> & urls & ->).
      split; [reflexivity|]. exists urls.
      split; [reflexivity|]. split; apply sorted_is_sorted.
    + intros ->. rewrite <- E. reflexivity.
Qed.

Lemma reader_is_idempotent_witness :
  config (snd (PerOrg.get_configured_servers (start sample_config)))
  = sample_config
  /\ exists urls : gset string,
       stdout (snd (PerOrg.get_configured_servers (start sample_config)))
       = [JsonDump None (JArr (JStr <$> Py.sorted urls))]
       /\ Sorted String.le (Py.sorted urls).
Proof.
  destruct (reader_is_idempotent sample_config) as [(Hfile & _ & Hout) _].
  split; [exact Hfile|].
  destruct (Hout 0%Z eq_refl) as (_ & urls & Hprint & Hsorted & _).
  exists urls. split; [exact Hprint | exact Hsorted].
Defined.

Example reader_sample_output :
  PerOrg.get_configured_servers (start sample_config)
  = (Returned 0,
     State sample_config
       [JsonDump None (JArr [JStr "https://a.example"; JStr "https://b.example"])]
       []).
Proof. vm_compute. reflexivity. Qed.

(** * Further properties *)

(** ** More on the environment lister *)

Lemma lister_with_token (h : host) (s : state) (token_out token_err : string) :
  which h "az" = true ->
  session_ready h = true ->
  az_get_access_token h = Within (Exited 0 token_out token_err) ->
  Unified.list_environments h s
  = (data ← fetch_response h (Py.strip token_out); report_environments data) s.
Proof.
  intros Haz Hsess Htok.
  unfold Unified.list_environments, Common.list_environments.
  assert (global_ Unified.globals "shutil" = ret tt) as -> by reflexivity.
  unfold bind at 1. unfold ret at 1. rewrite Haz. cbn [negb].
  unfold session_ready, login_succeeds in Hsess.
  assert (Hsession :
    try_except (bind (run_timed true (az_account_show h)) (fun _ => ret tt))
      (fun e => is_CalledProcessError e || is_TimeoutExpired e)
      (fun _ => try_except (bind (run true (az_login h)) (fun _ => ret tt))
                  is_CalledProcessError
                  (fun _ => bind (eprint (Text "Error: Azure login failed."))
                              (fun _ => return_ 1))) s
    = (Val tt, s)).
  { unfold try_except, bind, ret, raise, run_timed, run.
    destruct (az_account_show h) as [[rc o e|]|]; try discriminate.
    - destruct (rc =? 0)%Z; cbn in *; [reflexivity|].
      destruct (az_login h) as [rc' o' e'|]; try discriminate.
      now rewrite Hsess.
    - cbn. destruct (az_login h) as [rc' o' e'|]; try discriminate.
      now rewrite Hsess. }
  unfold bind at 1. rewrite Hsession.
  unfold bind at 1. unfold try_except at 1. unfold bind at 1.
  unfold run_timed, run. rewrite Htok. cbn [andb negb Z.eqb].
  unfold ret at 1. unfold ret at 1. cbn [p_stdout].
  reflexivity.
Qed.

(** X1.  When the lister gets as far as the filter step with a well-shaped
    response that holds at least one Dataverse environment, it prints the
    filtered list as one JSON array with indent 2, writes nothing to the
    error stream and returns 0. *)
Theorem list_environments_prints_list (h : host) (s : state)
    (token_out token_err : string) (data : json) :
  which h "az" = true ->
  session_ready h = true ->
  az_get_access_token h = Within (Exited 0 token_out token_err) ->
  http_get h (Common.api_url h) (Py.strip token_out) = HttpJson data ->
  response_well_shaped data = true ->
  spec_environments (response_records data) ≠ [] ->
  Unified.list_environments h s
  = (Returned 0,
     State (config s)
       (stdout s ++ [JsonDump (Some 2%nat)
                       (JArr (spec_environments (response_records data)))])
       (stderr s)).
Proof.
  intros Haz Hsess Htok Hhttp Hshape Hne.
  rewrite (lister_with_token h s token_out token_err) by assumption.
  unfold fetch_response, report_environments, try_except, bind.
  rewrite Hhttp. unfold ret at 1.
  pose proof (filter_environments_cases data s) as H. rewrite Hshape in H.
  rewrite H. destruct (spec_environments (response_records data)); [done|].
  reflexivity.
Qed.

Lemma list_environments_prints_list_witness :
  Unified.list_environments (host_with_response sample_response) (start NoFile)
  = (Returned 0,
     State NoFile
       [JsonDump (Some 2%nat)
          (JArr [JObj [("displayName", JStr "Acme");
                       ("instanceUrl", JStr "https://acme.crm.dynamics.com")]])]
       []).
Proof.
  apply (list_environments_prints_list (host_with_response sample_response)
           (start NoFile) (" tok" +:+ nl) "" sample_response);
    try reflexivity.
  discriminate.
Defined.

(** X4.  Whatever exception the HTTP request or the parsing of its body
    raises, the lister catches it: it returns 1 with exactly one diagnostic
    on the error stream; for an [HTTPError] the diagnostic carries the
    status code. *)
Theorem http_failure_is_reported (h : host) (s : state)
    (token_out token_err : string) (e : exn) :
  which h "az" = true ->
  session_ready h = true ->
  az_get_access_token h = Within (Exited 0 token_out token_err) ->
  http_get h (Common.api_url h) (Py.strip token_out) = HttpRaises e ->
  exists line,
    Unified.list_environments h s
    = (Returned 1, State (config s) (stdout s) (stderr s ++ [line]))
    /\ (forall code, e = HTTPError code ->
          line = Line [Lit "Error: HTTP "; OfInt code;
                       Lit " - Failed to retrieve environments from Power Apps API."]).
Proof.
  intros Haz Hsess Htok Hhttp.
  rewrite (lister_with_token h s token_out token_err) by assumption.
  unfold fetch_response, report_environments, try_except, bind.
  rewrite Hhttp. unfold raise at 1. cbn [is_Exception].
  destruct e; eexists; (split; [reflexivity|]); intros code' [=]; subst; reflexivity.
Qed.

Lemma http_failure_is_reported_witness :
  Unified.list_environments host_http_forbidden (start NoFile)
  = (Returned 1,
     State NoFile []
       [Line [Lit "Error: HTTP "; OfInt 403;
              Lit " - Failed to retrieve environments from Power Apps API."]]).
Proof.
  destruct (http_failure_is_reported host_http_forbidden (start NoFile)
              "tok" "" (HTTPError 403) eq_refl eq_refl eq_refl eq_refl)
    as (line & Hrun & Hline).
  rewrite Hrun, (Hline 403%Z eq_refl). reflexivity.
Defined.

Lemma report_environments_outcome (data : json) (s : state) :
  let '(r, s') := report_environments data s in
  config s' = config s
  /\ match r with
     | Returned code =>
         (code = 0%Z /\ stderr s' = stderr s
          /\ exists envs, envs ≠ []
               /\ stdout s' = stdout s ++ [JsonDump (Some 2%nat) (JArr envs)])
         \/ (code = 1%Z /\ stdout s' = stdout s
             /\ exists line, stderr s' = stderr s ++ [line])
     | Raised _ => s' = s
     | Val _ => False
     end.
Proof.
  unfold report_environments, bind.
  pose proof (filter_environments_cases data s) as H.
  destruct (response_well_shaped data).
  - rewrite H. destruct (spec_environments (response_records data)) as [|e l];
      cbn; (split; [reflexivity|]).
    + right. eauto.
    + left. repeat split. exists (e :: l). split; [discriminate|reflexivity].
  - destruct H as [ex ->]. now split.
Qed.

(** X2.  On every host and in every state the lister of the unified tool
    leaves the configuration file alone and ends in one of three ways: it
    returns 0 after printing one non-empty JSON array and nothing on the
    error stream; it returns 1 after one diagnostic on the error stream and
    nothing on the standard output; or it raises with the state untouched. *)
Theorem list_environments_outcome (h : host) (s : state) :
  let '(r, s') := Unified.list_environments h s in
  config s' = config s
  /\ match r with
     | Returned code =>
         (code = 0%Z /\ stderr s' = stderr s
          /\ exists envs, envs ≠ []
               /\ stdout s' = stdout s ++ [JsonDump (Some 2%nat) (JArr envs)])
         \/ (code = 1%Z /\ stdout s' = stdout s
             /\ exists line, stderr s' = stderr s ++ [line])
     | Raised _ => s' = s
     | Val _ => False
     end.
Proof.
  unfold Unified.list_environments, Common.list_environments.
  assert (global_ Unified.globals "shutil" = ret tt) as -> by reflexivity.
  unfold bind at 1. unfold ret at 1.
  destruct (which h "az"); cbn [negb].
  2:{ cbn. split; [reflexivity|]. right. eauto. }
  assert (Htail : forall token,
    (data ← fetch_response h token; report_environments data) s
    = (data ← try_except
      (match http_get h (Common.api_url h) token with
       | HttpJson v => ret v
       | HttpRaises e => raise e
       end)
      is_Exception
      (fun e =>
         match e with
         | HTTPError code =>
             eprint (Line [Lit "Error: HTTP "; OfInt code;
                           Lit " - Failed to retrieve environments from Power Apps API."]);;
             return_ 1
         | URLError reason =>
             eprint (Line [Lit "Error: Failed to connect to Power Apps API: ";
                           Lit reason]);;
             return_ 1
         | JSONDecodeError =>
             eprint (Line [Lit "Error: Could not parse API response: "; OfExn e]);;
             return_ 1
         | _ =>
             eprint (Line [Lit "Error: Unexpected error calling Power Apps API: ";
                           OfExn e]);;
             return_ 1
         end);
    envs ← Common.filter_environments data;
    match envs with
    | [] =>
        eprint (Text "No Dataverse (CommonDataService) environments were found for this account.");;
        return_ 1
    | _ =>
        print (JsonDump (Some 2%nat) (JArr envs));;
        return_ 0
    end) s) by reflexivity.
  assert (Hrest : forall token,
    let '(r, s') := (data ← fetch_response h token; report_environments data) s in
    config s' = config s
    /\ match r with
       | Returned code =>
           (code = 0%Z /\ stderr s' = stderr s
            /\ exists envs, envs ≠ []
                 /\ stdout s' = stdout s ++ [JsonDump (Some 2%nat) (JArr envs)])
           \/ (code = 1%Z /\ stdout s' = stdout s
               /\ exists line, stderr s' = stderr s ++ [line])
       | Raised _ => s' = s
       | Val _ => False
       end).
  { intros token. unfold fetch_response, try_except, bind at 1.
    destruct (http_get h (Common.api_url h) token) as [v|e].
    - unfold ret at 1. apply report_environments_outcome.
    - unfold raise at 1. cbn [is_Exception].
      destruct e; cbn; (split; [reflexivity|]); right; eauto. }
  assert (Htoken :
    let '(r, s') :=
      (token ← try_except
         (result ← run_timed true (az_get_access_token h);
          ret (Py.strip (p_stdout result)))
         (fun e => is_CalledProcessError e || is_TimeoutExpired e)
         (fun _ =>
            eprint (Text "Error: Could not obtain an access token. Run 'az login' and try again.");;
            return_ 1);
       data ← fetch_response h token; report_environments data) s in
    config s' = config s
    /\ match r with
       | Returned code =>
           (code = 0%Z /\ stderr s' = stderr s
            /\ exists envs, envs ≠ []
                 /\ stdout s' = stdout s ++ [JsonDump (Some 2%nat) (JArr envs)])
           \/ (code = 1%Z /\ stdout s' = stdout s
               /\ exists line, stderr s' = stderr s ++ [line])
       | Raised _ => s' = s
       | Val _ => False
       end).
  { unfold bind at 1. unfold try_except at 1. unfold bind at 1.
    unfold run_timed, run.
    destruct (az_get_access_token h) as [[rc o e|]|].
    - destruct (rc =? 0)%Z; cbn [andb negb].
      + unfold ret at 1. unfold ret at 1. apply Hrest.
      + cbn. split; [reflexivity|]. right. eauto.
    - cbn. now split.
    - cbn. split; [reflexivity|]. right. eauto. }
  unfold bind at 1. unfold try_except at 1. unfold bind at 1.
  unfold run_timed at 1, run at 1.
  destruct (az_account_show h) as [[rc o e|]|].
  - destruct (rc =? 0)%Z; cbn [andb negb].
    + unfold ret at 1. unfold ret at 1. exact Htoken.
    + unfold raise at 1. cbn [orb is_CalledProcessError].
      unfold try_except at 1. unfold bind at 1. unfold run at 1.
      destruct (az_login h) as [rc' o' e'|].
      * destruct (rc' =? 0)%Z; cbn [andb negb].
        -- unfold ret at 1. unfold ret at 1. exact Htoken.
        -- cbn. split; [reflexivity|]. right. eauto.
      * cbn. now split.
  - cbn. now split.
  - unfold raise at 1. cbn [orb is_CalledProcessError is_TimeoutExpired].
    unfold try_except at 1. unfold bind at 1. unfold run at 1.
    destruct (az_login h) as [rc' o' e'|].
    + destruct (rc' =? 0)%Z; cbn [andb negb].
      * unfold ret at 1. unfold ret at 1. exact Htoken.
      * cbn. split; [reflexivity|]. right. eauto.
    + cbn. now split.
Qed.

(** ** More on the writer of the configuration store *)

Lemma configure_copilot_step (h : host) (mcp_url name : string) (s : state) :
  PerOrg.configure_copilot h mcp_url name s = write_step h mcp_url name s.
Proof.
  unfold PerOrg.configure_copilot, write_step, mkdir_parents, dump_config,
    load_config, stored.
  destruct (mkdir_error h) as [e|]; [reflexivity|].
  unfold try_except, bind at 1, ret at 1, bind at 1.
  assert (Hobj : forall top,
    (has_servers ← py_in "servers" (JObj top);
     let servers_key := if has_servers then "servers" else "mcpServers" in
     has_key ← py_in servers_key (JObj top);
     config ← (if negb has_key then py_setitem (JObj top) servers_key (JObj [])
               else ret (JObj top));
     servers ← py_getitem config servers_key;
     servers ← py_setitem servers name
       (JObj [("type", JStr "http"); ("url", JStr mcp_url)]);
     config ← py_setitem config servers_key servers;
     match write_error h with
     | Some e => raise e
     | None => fun s => (Val tt, State (JsonDoc config) (stdout s) (stderr s))
     end) s
    = match merge_entry name mcp_url (JObj top) with
      | Val v' =>
          match write_error h with
          | Some e => (Raised e, s)
          | None => (Val tt, State (JsonDoc v') (stdout s) (stderr s))
          end
      | Returned c => (Returned c, s)
      | Raised e => (Raised e, s)
      end).
  { intros top. unfold merge_entry, servers_key_of, py_in, bind, ret.
    destruct (dict_has "servers" top) eqn:Hs.
    - rewrite Hs. cbn [negb]. unfold dict_has in Hs. unfold py_getitem.
      destruct (dict_get "servers" top) as [v|]; [|discriminate].
      destruct v; try reflexivity. cbn.
      destruct (write_error h); reflexivity.
    - destruct (dict_has "mcpServers" top) eqn:Hm; cbn [negb].
      + unfold dict_has in Hm. unfold py_getitem.
        destruct (dict_get "mcpServers" top) as [v|]; [|discriminate].
        destruct v; try reflexivity. cbn.
        destruct (write_error h); reflexivity.
      + unfold dict_has in Hm.
        destruct (dict_get "mcpServers" top) as [v|] eqn:Hg; [discriminate|].
        cbn. rewrite dict_get_set_eq. cbn.
        destruct (write_error h); reflexivity. }
  destruct (config s) as [|msg| |v]; cbn [is_FileNotFoundError is_JSONDecodeError orb];
    try reflexivity; try apply Hobj.
  destruct v as [| | |str|l|top]; try reflexivity; try apply Hobj.
  - unfold py_in, bind, ret. cbn beta iota zeta.
    destruct (Py.contains "servers" str) eqn:E; cbn beta iota zeta.
    + rewrite E. reflexivity.
    + destruct (Py.contains "mcpServers" str); reflexivity.
  - unfold py_in, bind, ret. cbn beta iota zeta.
    destruct (existsb (fun v => json_eq_str v "servers") l) eqn:E;
      cbn beta iota zeta.
    + rewrite E. reflexivity.
    + destruct (existsb (fun v => json_eq_str v "mcpServers") l) eqn:E';
        cbn beta iota zeta; rewrite ?E'; reflexivity.
Qed.

Lemma dict_set_set (k : string) (v1 v2 : json) (d : list (string * json)) :
  dict_set k v2 (dict_set k v1 d) = dict_set k v2 d.
Proof.
  induction d as [|[k' v'] d IH]; cbn.
  - now rewrite String.eqb_refl.
  - destruct (String.eqb k k') eqn:E; cbn.
    + now rewrite String.eqb_refl.
    + now rewrite E, IH.
Qed.

Lemma servers_key_of_set (v : json) (top : list (string * json)) :
  servers_key_of (dict_set (servers_key_of top) v top) = servers_key_of top.
Proof.
  unfold servers_key_of. rewrite dict_has_set.
  destruct (dict_has "servers" top); reflexivity.
Qed.

Lemma merge_entry_raises (name u1 u2 : string) (v : json) (e : exn) :
  merge_entry name u1 v = Raised e -> merge_entry name u2 v = Raised e.
Proof.
  unfold merge_entry. destruct v as [| | | | |top]; try done.
  destruct (dict_get _ top) as [[| | | | |d]|]; done.
Qed.

Lemma merge_entry_no_return (name u : string) (v : json) (c : Z) :
  merge_entry name u v ≠ Returned c.
Proof.
  unfold merge_entry. destruct v as [| | | | |top]; try done.
  destruct (dict_get _ top) as [[| | | | |d]|]; done.
Qed.

Lemma merge_entry_twice (name u1 u2 : string) (v v1 : json) :
  merge_entry name u1 v = Val v1 ->
  merge_entry name u2 v1 = merge_entry name u2 v.
Proof.
  unfold merge_entry. destruct v as [| | | | |top]; try done.
  destruct (dict_get (servers_key_of top) top) as [[| | | | |d]|] eqn:Hg;
    try done; intros [= <-].
  - rewrite servers_key_of_set, dict_get_set_eq, !dict_set_set. reflexivity.
  - rewrite !dict_set_set, servers_key_of_set, dict_get_set_eq, !dict_set_set.
    cbn. now rewrite String.eqb_refl.
Qed.

(** The writer never returns from its caller: it ends with a value or an
    exception, and an exception leaves the state as it was. *)
Lemma write_step_cases (h : host) (mcp_url name : string) (s : state) :
  (exists v, write_step h mcp_url name s
             = (Val tt, State (JsonDoc v) (stdout s) (stderr s))
             /\ merge_entry name mcp_url
                  (match stored (config s) with Val x => x | _ => JNull end)
                = Val v)
  \/ (exists e, write_step h mcp_url name s = (Raised e, s)).
Proof.
  unfold write_step.
  destruct (mkdir_error h); [eauto|].
  destruct (stored (config s)) as [v|c|e] eqn:Hst; [| |eauto].
  - destruct (merge_entry name mcp_url v) as [v'|c|e] eqn:Hm; [| |eauto].
    + destruct (write_error h); eauto.
    + now destruct (merge_entry_no_return name mcp_url v c).
  - destruct (config s); discriminate.
Qed.


(** X6.  Writing the entry of a server twice is writing it once with the
    second URL: on every host and in every state, two runs of the writer
    for the same server name end exactly as the second run alone would. *)
Theorem configure_copilot_last_wins (h : host) (url1 url2 name : string)
    (s : state) :
  (PerOrg.configure_copilot h url1 name;; PerOrg.configure_copilot h url2 name) s
  = PerOrg.configure_copilot h url2 name s.
Proof.
  unfold bind. rewrite (configure_copilot_step h url1 name s).
  rewrite (configure_copilot_step h url2 name s). unfold write_step.
  destruct (mkdir_error h) as [e|] eqn:Hmk; [reflexivity|].
  destruct (stored (config s)) as [v|c|e] eqn:Hst; [|reflexivity|reflexivity].
  destruct (merge_entry name url1 v) as [v1|c|e] eqn:Hm1.
  - destruct (write_error h) as [e|] eqn:Hwr.
    + destruct (merge_entry name url2 v) as [v2|c|e'] eqn:Hm2; try reflexivity.
      * now destruct (merge_entry_no_return name url2 v c).
      * apply (merge_entry_raises name url2 url1) in Hm2. congruence.
    + rewrite configure_copilot_step. unfold write_step.
      rewrite Hmk, Hwr. cbn [config stored stdout stderr].
      rewrite (merge_entry_twice name url1 url2 v v1 Hm1).
      destruct (merge_entry name url2 v) as [v2|c|e'] eqn:Hm2; try reflexivity.
      * now destruct (merge_entry_no_return name url2 v c).
      * apply (merge_entry_raises name url2 url1) in Hm2. congruence.
  - now destruct (merge_entry_no_return name url1 v c).
  - now rewrite (merge_entry_raises name url1 url2 v e Hm1).
Qed.

(** ** More on the configuration writer of the unified tool *)

Lemma configure_parts (h : host) (org_url : string)
    (endpoint_type tool : option string) :
  Unified.configure h org_url endpoint_type tool
  = let mcp_url := Unified.build_mcp_url org_url (default "ga" endpoint_type) in
    let tool := default "both" tool in
    ('(configured_for, manual_commands) ← claude_part h tool mcp_url;
     configured_for ← copilot_part h tool mcp_url configured_for;
     summary_part mcp_url (fst (Unified.get_copilot_config_path h))
       configured_for manual_commands).
Proof.
  unfold Unified.configure, Unified.get_copilot_config_path.
  destruct (Common.get_copilot_config_path h); reflexivity.
Qed.

Lemma unified_configure_copilot_step (h : host) (mcp_url : string) (s : state) :
  Unified.configure_copilot h mcp_url s
  = write_step h mcp_url Unified.SERVER_NAME s.
Proof. exact (configure_copilot_step h mcp_url Unified.SERVER_NAME s). Qed.

Lemma for_each_print (l : list string) (s : state) :
  for_each l (fun cmd _ => print (Text cmd)) tt s
  = (Val tt, State (config s) (stdout s ++ map Text l) (stderr s)).
Proof.
  revert s; induction l as [|x l IH]; intros s; cbn [for_each map].
  - unfold ret. rewrite app_nil_r. now destruct s.
  - unfold bind, print at 1. rewrite IH. cbn. now rewrite <- app_assoc.
Qed.

Ltac grown :=
  cbn [config stdout stderr];
  eexists; split; cycle 1;
  [rewrite <- ?app_assoc; reflexivity | discriminate].

Lemma claude_part_cases (h : host) (tool mcp_url : string) (s : state) :
  let '(r, s') := claude_part h tool mcp_url s in
  config s' = config s
  /\ match r with
     | Val (configured_for, manual_commands) =>
         stdout s' = stdout s
         /\ (exists lines, stderr s' = stderr s ++ lines)
         /\ (manual_commands = [] \/ exists block, manual_commands = [block])
         /\ (configured_for = [] \/ configured_for = ["Claude Code CLI"])
     | Returned code =>
         (code = 0%Z /\ stderr s' = stderr s
          /\ exists lines, lines ≠ [] /\ stdout s' = stdout s ++ lines)
         \/ (code = 1%Z /\ stdout s' = stdout s
             /\ exists lines, lines ≠ [] /\ stderr s' = stderr s ++ lines)
     | Raised e =>
         e = FileNotFoundError /\ s' = s
         /\ which h "claude" = true /\ claude_mcp_add h mcp_url = NotLaunched
     end.
Proof.
  unfold claude_part, Unified.has_claude_cli, Unified.configure_claude.
  destruct (one_of tool ["claude"; "both"]).
  2:{ cbn. repeat split; eauto. exists []. now rewrite app_nil_r. }
  destruct (which h "claude") eqn:Hw; cbn [negb].
  2:{ unfold bind, eprint, ret, return_.
      destruct (String.eqb tool "claude"); cbn; (split; [reflexivity|]).
      - right. repeat split. grown.
      - repeat split; eauto. }
  unfold try_except, bind, run, ret, raise, return_, print, eprint.
  destruct (claude_mcp_add h mcp_url) as [rc out err|] eqn:Hadd.
  2:{ cbn. repeat split; auto. }
  destruct (rc =? 0)%Z; cbn [andb negb is_CalledProcessError].
  { cbn. repeat split; eauto. exists []. now rewrite app_nil_r. }
  destruct (Py.contains _ _ || Py.contains _ _); cbn [is_CalledProcessError].
  - destruct (String.eqb tool "claude"); cbn; (split; [reflexivity|]).
    + left. repeat split. grown.
    + repeat split; eauto. exists []. now rewrite app_nil_r.
  - destruct (String.eqb tool "claude"); cbn; (split; [reflexivity|]).
    + right. repeat split. grown.
    + repeat split; eauto.
Qed.

Lemma copilot_part_cases (h : host) (tool mcp_url : string)
    (configured_for : list string) (s : state) :
  let '(r, s') := copilot_part h tool mcp_url configured_for s in
  match r with
  | Val configured_for' =>
      (configured_for' = configured_for ++ ["GitHub Copilot"]
       /\ exists v, s' = State (JsonDoc v) (stdout s) (stderr s))
      \/ (configured_for' = configured_for
          /\ config s' = config s /\ stdout s' = stdout s
          /\ exists lines, stderr s' = stderr s ++ lines)
  | Returned code =>
      code = 1%Z /\ config s' = config s /\ stdout s' = stdout s
      /\ exists lines, lines ≠ [] /\ stderr s' = stderr s ++ lines
  | Raised _ => False
  end.
Proof.
  unfold copilot_part.
  destruct (one_of tool ["copilot"; "both"]).
  2:{ cbn. right. repeat split. exists []. now rewrite app_nil_r. }
  unfold try_except, bind. rewrite unified_configure_copilot_step.
  destruct (write_step_cases h mcp_url Unified.SERVER_NAME s)
    as [(v & -> & _) | (e & ->)].
  - cbn. left. eauto.
  - cbn [is_Exception]. unfold eprint, ret, return_.
    destruct (String.eqb tool "copilot"); cbn.
    + repeat split. grown.
    + right. repeat split. eauto.
Qed.

Lemma summary_part_cases (mcp_url : string) (config_file : path)
    (configured_for manual_commands : list string) (s : state) :
  let '(r, s') :=
    summary_part mcp_url config_file configured_for manual_commands s in
  config s' = config s
  /\ match r with
     | Returned code =>
         (code = 0%Z /\ (configured_for ≠ [] \/ manual_commands ≠ [])
          /\ stderr s' = stderr s
          /\ exists lines, lines ≠ [] /\ stdout s' = stdout s ++ lines)
         \/ (code = 1%Z /\ configured_for = [] /\ manual_commands = []
             /\ stdout s' = stdout s
             /\ exists lines, lines ≠ [] /\ stderr s' = stderr s ++ lines)
     | _ => False
     end.
Proof.
  unfold summary_part.
  destruct configured_for as [|tool_name rest], manual_commands as [|block more].
  - cbn. split; [reflexivity|]. right. repeat split. grown.
  - unfold when, bind, print, ret, return_. cbn [negb bool_decide].
    rewrite bool_decide_true by reflexivity.
    rewrite bool_decide_false by discriminate. cbn [negb].
    rewrite for_each_print. cbn. split; [reflexivity|]. left.
    repeat split; [now right|]. grown.
  - unfold when, bind, print, ret, return_.
    rewrite bool_decide_false by discriminate.
    rewrite bool_decide_true by reflexivity. cbn [negb].
    destruct (existsb _ _); cbn; (split; [reflexivity|]); left;
      (repeat split; [now left|]); grown.
  - unfold when, bind, print, ret, return_.
    rewrite !bool_decide_false by discriminate. cbn [negb].
    destruct (existsb _ _); rewrite for_each_print; cbn;
      (split; [reflexivity|]); left; (repeat split; [now left|]); grown.
Qed.

(** X7.  [configure] of the unified tool, for every host, state and tool
    selector, returns 0 after printing something on the standard output, or
    returns 1 with the configuration file and the standard output untouched
    and a diagnostic on the error stream, or raises [FileNotFoundError] with
    the state untouched, which happens only when the Claude CLI was found
    but could not be started. *)
Theorem configure_outcome (h : host) (org_url : string)
    (endpoint_type tool : option string) (s : state) :
  let '(r, s') := Unified.configure h org_url endpoint_type tool s in
  match r with
  | Returned code =>
      (code = 0%Z
       /\ exists lines, lines ≠ [] /\ stdout s' = stdout s ++ lines)
      \/ (code = 1%Z
          /\ config s' = config s /\ stdout s' = stdout s
          /\ exists lines, lines ≠ [] /\ stderr s' = stderr s ++ lines)
  | Raised e =>
      e = FileNotFoundError /\ s' = s
      /\ which h "claude" = true
      /\ claude_mcp_add h
           (Unified.build_mcp_url org_url (default "ga" endpoint_type))
         = NotLaunched
  | Val _ => False
  end.
Proof.
  rewrite configure_parts. cbn zeta.
  set (mcp_url := Unified.build_mcp_url org_url (default "ga" endpoint_type)).
  set (t := default "both" tool).
  unfold bind at 1.
  pose proof (claude_part_cases h t mcp_url s) as H1.
  destruct (claude_part h t mcp_url s) as [[[cf mc]|code|e] s1].
  2:{ destruct H1 as (Hc & [(-> & _ & Hout) | (-> & Hout & Herr)]);
        [left | right]; auto. }
  2:{ exact (proj2 H1). }
  destruct H1 as (Hc1 & Ho1 & (l1 & He1) & _ & _).
  unfold bind at 1.
  pose proof (copilot_part_cases h t mcp_url cf s1) as H2.
  destruct (copilot_part h t mcp_url cf s1) as [[cf'|code|e] s0]; [| |done].
  2:{ destruct H2 as (-> & Hc2 & Ho2 & l2 & Hne & He2). right.
      repeat split; try congruence. exists (l1 ++ l2). split.
      - destruct l1; [exact Hne|discriminate].
      - now rewrite He2, He1, app_assoc. }
  pose proof (summary_part_cases mcp_url (fst (Unified.get_copilot_config_path h))
                cf' mc s0) as H3.
  destruct (summary_part _ _ cf' mc s0) as [[u|code|e] s3]; try (now destruct H3).
  destruct H3 as (Hc3 & [(-> & _ & _ & l3 & Hne3 & Ho3)
                        | (-> & -> & -> & Ho3 & l3 & Hne3 & He3)]).
  - left. split; [reflexivity|]. exists l3. split; [exact Hne3|].
    destruct H2 as [(_ & v & ->) | (_ & _ & Ho2 & _)]; cbn in *; congruence.
  - right. destruct H2 as [(Hcf & _) | (_ & Hc2 & Ho2 & l2 & He2)].
    { now destruct cf. }
    repeat split; try congruence. exists (l1 ++ l2 ++ l3). split.
    + destruct l1, l2; try discriminate. exact Hne3.
    + rewrite He3, He2, He1. now rewrite <- !app_assoc.
Qed.

(** X8.  [configure] for the Claude CLI alone never changes the Copilot
    configuration file. *)
Theorem configure_claude_only_keeps_file (h : host) (org_url : string)
    (endpoint_type : option string) (s : state) :
  config (snd (Unified.configure h org_url endpoint_type (Some "claude") s))
  = config s.
Proof.
  rewrite configure_parts. cbn zeta.
  set (mcp_url := Unified.build_mcp_url org_url (default "ga" endpoint_type)).
  cbn [default from_option id]. unfold bind at 1.
  pose proof (claude_part_cases h "claude" mcp_url s) as H1.
  destruct (claude_part h "claude" mcp_url s) as [[[cf mc]|code|e] s1];
    [|exact (proj1 H1)..].
  destruct H1 as (Hc1 & _). unfold bind at 1.
  assert (copilot_part h "claude" mcp_url cf s1 = (Val cf, s1)) as ->
    by reflexivity.
  pose proof (summary_part_cases mcp_url (fst (Unified.get_copilot_config_path h))
                cf mc s1) as H3.
  destruct (summary_part _ _ cf mc s1) as [r s3]. cbn. destruct H3. congruence.
Qed.

(** X9.  [configure] for Copilot alone never consults the Claude CLI: two
    hosts that agree on the platform, the home directory and the outcome of
    the file operations give the same result. *)
Theorem configure_copilot_only_ignores_claude (h h' : host) (org_url : string)
    (endpoint_type : option string) (s : state) :
  is_windows h' = is_windows h ->
  env_userprofile h' = env_userprofile h ->
  home_dir h' = home_dir h ->
  mkdir_error h' = mkdir_error h ->
  write_error h' = write_error h ->
  Unified.configure h' org_url endpoint_type (Some "copilot") s
  = Unified.configure h org_url endpoint_type (Some "copilot") s.
Proof.
  intros Hwin Hprof Hhome Hmk Hwr. rewrite !configure_parts. cbn zeta.
  set (mcp_url := Unified.build_mcp_url org_url (default "ga" endpoint_type)).
  cbn [default from_option id].
  assert (Hpath : Unified.get_copilot_config_path h'
                  = Unified.get_copilot_config_path h).
  { unfold Unified.get_copilot_config_path, Common.get_copilot_config_path.
    now rewrite Hwin, Hprof, Hhome. }
  rewrite Hpath.
  assert (Hcl : forall x, claude_part x "copilot" mcp_url s = (Val ([], []), s))
    by reflexivity.
  unfold bind at 1 3. rewrite !Hcl.
  assert (Hco : copilot_part h' "copilot" mcp_url [] s
                = copilot_part h "copilot" mcp_url [] s).
  { unfold copilot_part. cbn [one_of existsb String.eqb Ascii.eqb Bool.eqb orb].
    unfold try_except, bind. rewrite !unified_configure_copilot_step.
    unfold write_step. now rewrite Hmk, Hwr. }
  unfold bind. now rewrite Hco.
Qed.

Lemma configure_copilot_only_ignores_claude_witness :
  Unified.configure nested_session_host "https://acme.crm.dynamics.com" None
    (Some "copilot") (start NoFile)
  = Unified.configure quiet_host "https://acme.crm.dynamics.com" None
      (Some "copilot") (start NoFile).
Proof. apply configure_copilot_only_ignores_claude; reflexivity. Defined.

(** X10.  With the selector [both], a Claude CLI that is absent or fails is
    not fatal: when the store can be merged and written, [configure]
    returns 0 and the file holds the merged store. *)
Theorem configure_both_survives_claude (h : host) (org_url : string)
    (endpoint_type : option string) (s : state) (v v' : json) :
  let mcp_url := Unified.build_mcp_url org_url (default "ga" endpoint_type) in
  which h "claude" = false \/ claude_mcp_add h mcp_url ≠ NotLaunched ->
  mkdir_error h = None -> write_error h = None ->
  stored (config s) = Val v ->
  merge_entry Unified.SERVER_NAME mcp_url v = Val v' ->
  exists s',
    Unified.configure h org_url endpoint_type (Some "both") s = (Returned 0, s')
    /\ config s' = JsonDoc v'.
Proof.
  cbn zeta. intros Hclaude Hmk Hwr Hst Hmerge.
  rewrite configure_parts. cbn zeta.
  set (mcp_url := Unified.build_mcp_url org_url (default "ga" endpoint_type)) in *.
  cbn [default from_option id]. unfold bind at 1.
  assert (H1 : exists cf mc s1,
             claude_part h "both" mcp_url s = (Val (cf, mc), s1)
             /\ config s1 = config s).
  { unfold claude_part, Unified.has_claude_cli, Unified.configure_claude.
    cbn [one_of existsb String.eqb Ascii.eqb Bool.eqb orb].
    destruct (which h "claude") eqn:Hw; cbn [negb].
    2:{ cbn. eauto. }
    destruct Hclaude as [|Hadd]; [discriminate|].
    unfold try_except, bind, run, ret, raise, return_, print, eprint.
    destruct (claude_mcp_add h mcp_url) as [rc out err|]; [|done].
    destruct (rc =? 0)%Z; cbn [andb negb is_CalledProcessError]; [cbn; eauto|].
    destruct (Py.contains _ _ || Py.contains _ _);
      cbn [is_CalledProcessError]; cbn; eauto. }
  destruct H1 as (cf & mc & s1 & -> & Hc1). unfold bind at 1.
  assert (H2 : copilot_part h "both" mcp_url cf s1
               = (Val (cf ++ ["GitHub Copilot"]),
                  State (JsonDoc v') (stdout s1) (stderr s1))).
  { unfold copilot_part. cbn [one_of existsb String.eqb Ascii.eqb Bool.eqb orb].
    unfold try_except, bind. rewrite unified_configure_copilot_step.
    unfold write_step. now rewrite Hmk, Hwr, Hc1, Hst, Hmerge. }
  rewrite H2.
  pose proof (summary_part_cases mcp_url (fst (Unified.get_copilot_config_path h))
                (cf ++ ["GitHub Copilot"]) mc
                (State (JsonDoc v') (stdout s1) (stderr s1))) as H3.
  destruct (summary_part _ _ _ mc _) as [[u|code|e] s3]; try (now destruct H3).
  destruct H3 as (Hc3 & [(-> & _) | (_ & Hnil & _)]).
  - exists s3. split; [reflexivity|exact Hc3].
  - now destruct cf.
Qed.

Lemma configure_both_survives_claude_witness :
  exists s',
    Unified.configure nested_session_host "https://acme.crm.dynamics.com" None
      (Some "both") (start NoFile)
    = (Returned 0, s')
    /\ config s'
       = JsonDoc (JObj [("mcpServers",
                         JObj [("Dataverse",
                                server_entry "https://acme.crm.dynamics.com/api/mcp")])]).
Proof.
  apply (configure_both_survives_claude nested_session_host
           "https://acme.crm.dynamics.com" None (start NoFile) (JObj []));
    [right; discriminate | reflexivity..].
Defined.

(** X11.  [configure] of the Copilot-only tool never raises.  It returns 0
    exactly when the writer succeeded, with the merged store in the file
    and four lines on the standard output; otherwise it returns 1 with one
    diagnostic on the error stream and the file and the standard output
    untouched. *)
Theorem per_org_configure_outcome (h : host) (org_url : string)
    (endpoint_type : option string) (s : state) :
  let mcp_url := PerOrg.build_mcp_url org_url (default "ga" endpoint_type) in
  let '(r, s') := PerOrg.configure h org_url endpoint_type s in
  (r = Returned 0
   /\ (exists v, config s' = JsonDoc v
         /\ merge_entry (PerOrg.get_server_name org_url) mcp_url
              (match stored (config s) with Val x => x | _ => JNull end)
            = Val v)
   /\ stderr s' = stderr s
   /\ stdout s'
      = stdout s
        ++ [Text "Dataverse MCP server registered successfully for GitHub Copilot.";
            Text ("  Server name    : " +:+ PerOrg.get_server_name org_url);
            Text ("  Server URL     : " +:+ mcp_url);
            Line [Lit "  Copilot config : ";
                  OfPath (fst (PerOrg.get_copilot_config_path h))]])
  \/ (r = Returned 1
      /\ config s' = config s /\ stdout s' = stdout s
      /\ exists e,
           stderr s'
           = stderr s ++ [Line [Lit "Error: Failed to configure GitHub Copilot: ";
                                OfExn e]]).
Proof.
  cbn zeta. unfold PerOrg.configure, PerOrg.get_copilot_config_path.
  destruct (Common.get_copilot_config_path h) as [config_file display_path].
  set (mcp_url := PerOrg.build_mcp_url org_url (default "ga" endpoint_type)).
  unfold try_except, bind at 1. rewrite configure_copilot_step.
  destruct (write_step_cases h mcp_url (PerOrg.get_server_name org_url) s)
    as [(v & -> & Hm) | (e & ->)].
  - left. cbn. repeat split; eauto. now rewrite <- !app_assoc.
  - right. cbn. repeat split; eauto.
Qed.

(** ** More on the reader of the configured servers *)

Lemma add_server_url_cases (v : json) (urls : gset string) (s : state) :
  if entry_readable v
  then Common.add_server_url v urls s
       = (Val (match entry_url v with Some u => urls ∪ {[ u ]} | None => urls end),
          s)
  else exists e, Common.add_server_url v urls s = (Raised e, s).
Proof.
  unfold Common.add_server_url, entry_readable, entry_url, py_get, py_rstrip,
    bind, ret, raise.
  destruct v as [| | | | |e]; try (eexists; reflexivity).
  destruct (dict_get_default "url" (JStr "") e); try (eexists; reflexivity).
  cbn. now destruct (Py.startswith _ _).
Qed.

Lemma add_server_urls_cases (vs : list json) (urls : gset string) (s : state) :
  if forallb entry_readable vs
  then for_each vs Common.add_server_url urls s
       = (Val (urls ∪ list_to_set (omap entry_url vs)), s)
  else exists e, for_each vs Common.add_server_url urls s = (Raised e, s).
Proof.
  revert urls; induction vs as [|v vs IH]; intros urls.
  - cbn. unfold ret. now rewrite (right_id_L ∅ (∪)).
  - cbn [forallb for_each omap list_omap]. unfold bind.
    pose proof (add_server_url_cases v urls s) as Hv.
    destruct (entry_readable v); cbn [andb].
    + rewrite Hv.
      specialize (IH (match entry_url v with
                      | Some u => urls ∪ {[u]} | None => urls end)).
      destruct (forallb entry_readable vs).
      * rewrite IH. do 2 f_equal. destruct (entry_url v); cbn [list_to_set];
          [now rewrite (assoc_L (∪))|reflexivity].
      * exact IH.
    + destruct Hv as [e ->]. eauto.
Qed.

Lemma read_config_urls_object (top : list (string * json)) (urls : gset string)
    (s : state) :
  config s = JsonDoc (JObj top) ->
  Common.read_config_urls urls s
  = match read_servers top with
    | JObj d =>
        match for_each (map snd d) Common.add_server_url urls s with
        | (Raised e, s') =>
            if is_FileNotFoundError e || is_JSONDecodeError e
               || match e with KeyError _ => true | _ => false end
            then (Val urls, s') else (Raised e, s')
        | r => r
        end
    | v => (Raised (AttributeError v "values"), s)
    end.
Proof.
  intros Hc. unfold Common.read_config_urls, try_except, bind, load_config,
    read_servers, py_get, py_values, ret, raise.
  rewrite Hc. destruct (dict_get_default "mcpServers" _ top); reflexivity.
Qed.

(** X13.  On such a file the Copilot-only reader returns 0 and prints the
    sorted set of the trimmed [https://] URLs of the entries under
    [mcpServers], or under [servers] when [mcpServers] is absent. *)
Theorem reader_prints_entry_urls (top d : list (string * json)) (s : state) :
  config s = JsonDoc (JObj top) ->
  read_servers top = JObj d ->
  forallb entry_readable (map snd d) = true ->
  PerOrg.get_configured_servers s
  = (Returned 0,
     State (config s)
       (stdout s
        ++ [JsonDump None
              (JArr (JStr <$> Py.sorted (list_to_set (omap entry_url (map snd d)))))])
       (stderr s)).
Proof.
  intros Hc Hd Hr. unfold PerOrg.get_configured_servers, bind.
  rewrite (read_config_urls_object top) by exact Hc. rewrite Hd.
  pose proof (add_server_urls_cases (map snd d) ∅ s) as H. rewrite Hr in H.
  rewrite H, (left_id_L ∅ (∪)). reflexivity.
Qed.

Lemma reader_prints_entry_urls_witness :
  PerOrg.get_configured_servers (start sample_config)
  = (Returned 0,
     State sample_config
       [JsonDump None (JArr [JStr "https://a.example"; JStr "https://b.example"])]
       []).
Proof.
  etrans;
    [apply (reader_prints_entry_urls [("servers", JObj sample_entries)]
              sample_entries (start sample_config)); reflexivity
    | vm_compute; reflexivity].
Defined.

(** ** What every reported URL looks like *)

Lemma startswith_scheme (x : string) :
  Py.startswith "https://" ("https://" +:+ x) = true.
Proof.
  unfold Py.startswith. rewrite !app_cons, !prefix_cons, prefix_nil.
  reflexivity.
Qed.

Lemma findall_from_scheme (s : string) (skip : nat) (u : string) :
  In u (Py.findall_from skip s) -> exists run, u = "https://" +:+ run.
Proof.
  revert skip; induction s as [|c s IH]; intros skip; cbn [Py.findall_from];
    [intros []|].
  destruct skip as [|k]; [|apply IH].
  destruct (String.prefix "https://" (String c s) && _); [|apply IH].
  intros [<- | H]; [eauto | eapply IH, H].
Qed.

Lemma rstrip_keeps_scheme (run : string) :
  Py.rstrip Unified.url_trailing ("https://" +:+ run)
  = "https://" +:+ Py.rstrip Unified.url_trailing run.
Proof.
  unfold Py.rstrip.
  change ("https://" +:+ run) with ("https:/" +:+ String "/" run).
  now rewrite rstrip_by_keeps by reflexivity.
Qed.

Lemma for_each_invariant {A S : Type} (P : S -> Prop) (body : A -> S -> M S)
    (l : list A) :
  (forall x acc s acc' s', P acc -> body x acc s = (Val acc', s') -> P acc') ->
  forall acc s acc' s',
    P acc -> for_each l body acc s = (Val acc', s') -> P acc'.
Proof.
  intros Hbody. induction l as [|x l IH]; intros acc s acc' s' HP.
  - cbn. unfold ret. now intros [= <- _].
  - cbn [for_each]. unfold bind.
    destruct (body x acc s) as [[a|c|e] s1] eqn:E; try discriminate.
    eauto.
Qed.

Lemma add_server_url_invariant (P : string -> Prop) (v : json)
    (urls urls' : gset string) (s s' : state) :
  (forall raw, Py.startswith "https://" (Py.rstrip "/" raw) = true ->
               P (Py.rstrip "/" raw)) ->
  (forall u, u ∈ urls -> P u) ->
  Common.add_server_url v urls s = (Val urls', s') ->
  forall u, u ∈ urls' -> P u.
Proof.
  intros HP Hurls. unfold Common.add_server_url, py_get, py_rstrip, bind, ret, raise.
  destruct v as [| | | | |e]; try discriminate.
  destruct (dict_get_default "url" (JStr "") e) as [| | |raw| |]; try discriminate.
  destruct (Py.startswith "https://" (Py.rstrip "/" raw)) eqn:E;
    intros [= <- _] u; [|auto].
  rewrite elem_of_union, elem_of_singleton. intros [Hu | ->]; auto.
Qed.

Lemma read_config_urls_invariant (P : string -> Prop) (urls urls' : gset string)
    (s s' : state) :
  (forall raw, Py.startswith "https://" (Py.rstrip "/" raw) = true ->
               P (Py.rstrip "/" raw)) ->
  (forall u, u ∈ urls -> P u) ->
  Common.read_config_urls urls s = (Val urls', s') ->
  forall u, u ∈ urls' -> P u.
Proof.
  intros HP Hurls.
  unfold Common.read_config_urls, try_except, bind, load_config.
  destruct (config s) as [|msg| |v]; cbn; try (intros [= <- _]; exact Hurls);
    try discriminate.
  unfold py_get, py_values, ret, raise.
  destruct v as [| | | | |top]; try discriminate.
  destruct (dict_get_default "mcpServers" _ top) as [| | | | |d]; try discriminate.
  destruct (for_each (map snd d) Common.add_server_url urls s)
    as [[a|c|e] s1] eqn:E.
  - intros [= <- _].
    refine (for_each_invariant (fun acc : gset string => forall u, u ∈ acc -> P u)
              Common.add_server_url (map snd d) _ urls s a s1 Hurls E).
    intros x acc s2 acc' s2' Hacc Hx. eapply add_server_url_invariant; eauto.
  - discriminate.
  - destruct (_ || _); [|discriminate]. intros [= <- _]. exact Hurls.
Qed.

Lemma fold_left_add (f : string -> string) (l : list string) (acc : gset string) :
  fold_left (fun acc u => acc ∪ {[ f u ]}) l acc = acc ∪ list_to_set (f <$> l).
Proof.
  revert acc; induction l as [|u l IH]; intros acc; cbn.
  - now rewrite (right_id_L ∅ (∪)).
  - now rewrite IH, (assoc_L (∪)).
Qed.

Lemma reader_after_first_source (h : host) (tool : option string) (s : state) :
  Unified.get_configured_servers h tool s
  = finish_reader (default "both" tool)
      (if one_of (default "both" tool) ["claude"; "both"] then claude_urls h
       else ∅) s.
Proof.
  unfold Unified.get_configured_servers, finish_reader, claude_urls,
    Unified.has_claude_cli.
  destruct (one_of (default "both" tool) ["claude"; "both"]); [|reflexivity].
  destruct (which h "claude"); [|reflexivity]. cbn [andb].
  unfold bind at 1, try_except, bind at 1, run_timed, run.
  destruct (claude_mcp_list h) as [[rc out err|]|]; cbn [andb]; try reflexivity.
  unfold ret at 1. cbn [returncode p_stdout].
  destruct (rc =? 0)%Z; [|reflexivity].
  unfold ret at 1. now rewrite fold_left_add, (left_id_L ∅ (∪)).
Qed.

Lemma claude_urls_https (h : host) : all_https (claude_urls h).
Proof.
  unfold claude_urls, all_https. intros u.
  destruct (which h "claude"); [|set_solver].
  destruct (claude_mcp_list h) as [[rc out err|]|]; try set_solver.
  destruct (rc =? 0)%Z; [|set_solver].
  rewrite elem_of_list_to_set, list_elem_of_fmap.
  intros (m & -> & Hm%list_elem_of_In).
  apply findall_from_scheme in Hm as [run ->].
  rewrite rstrip_keeps_scheme. apply startswith_scheme.
Qed.

Lemma finish_reader_returns (tool : string) (urls0 : gset string) (s : state)
    (code : Z) (s' : state) :
  finish_reader tool urls0 s = (Returned code, s') ->
  code = 0%Z
  /\ exists urls : gset string,
       s' = State (config s)
              (stdout s ++ [JsonDump None (JArr (JStr <$> Py.sorted urls))])
              (stderr s)
       /\ (if one_of tool ["copilot"; "both"]
           then Common.read_config_urls urls0 s = (Val urls, s)
           else urls = urls0).
Proof.
  unfold finish_reader, bind, print, return_, ret.
  destruct (one_of tool ["copilot"; "both"]).
  - pose proof (read_config_urls_state urls0 s) as Hs.
    pose proof (read_config_urls_no_return urls0 s) as Hn.
    destruct (Common.read_config_urls urls0 s) as [[u|c|e] s1];
      cbn in *; subst; intros [= <- <-]; [eauto|].
    now destruct (Hn c).
  - cbn. intros [= <- <-]. eauto.
Qed.

(** X14.  Whenever the unified reader returns, every URL of the array it
    printed starts with [https://]. *)
Theorem reader_reports_https_urls (h : host) (tool : option string)
    (s s' : state) (code : Z) :
  Unified.get_configured_servers h tool s = (Returned code, s') ->
  exists urls : gset string,
    stdout s' = stdout s ++ [JsonDump None (JArr (JStr <$> Py.sorted urls))]
    /\ forall u, u ∈ Py.sorted urls -> Py.startswith "https://" u = true.
Proof.
  rewrite reader_after_first_source. intros H.
  apply finish_reader_returns in H as (_ & urls & -> & Hurls).
  exists urls. split; [reflexivity|]. intros u Hu.
  apply sorted_is_sorted in Hu.
  assert (H0 : all_https
                 (if one_of (default "both" tool) ["claude"; "both"]
                  then claude_urls h else ∅)).
  { destruct (one_of _ ["claude"; "both"]); [apply claude_urls_https|].
    intros x Hx. set_solver. }
  destruct (one_of (default "both" tool) ["copilot"; "both"]).
  - eapply (read_config_urls_invariant
              (fun u => Py.startswith "https://" u = true)); eauto.
  - subst. auto.
Qed.

Lemma reader_reports_https_urls_witness :
  exists urls : gset string,
    stdout (snd (Unified.get_configured_servers quiet_host None
                   (start sample_config)))
    = [JsonDump None (JArr (JStr <$> Py.sorted urls))]
    /\ forall u, u ∈ Py.sorted urls -> Py.startswith "https://" u = true.
Proof.
  apply (reader_reports_https_urls quiet_host None (start sample_config)
           (snd (Unified.get_configured_servers quiet_host None
                   (start sample_config))) 0%Z).
  vm_compute. reflexivity.
Defined.

(** X15.  Whenever the Copilot-only reader returns, every URL of the array
    it printed starts with [https://] and does not end with a slash. *)
Theorem copilot_reader_reports_trimmed_urls (s s' : state) (code : Z) :
  PerOrg.get_configured_servers s = (Returned code, s') ->
  exists urls : gset string,
    stdout s' = stdout s ++ [JsonDump None (JArr (JStr <$> Py.sorted urls))]
    /\ forall u, u ∈ Py.sorted urls ->
         Py.startswith "https://" u = true /\ forall t, u ≠ t +:+ "/".
Proof.
  change PerOrg.get_configured_servers with (finish_reader "copilot" ∅).
  intros H. apply finish_reader_returns in H as (_ & urls & -> & Hurls).
  cbn in Hurls. exists urls. split; [reflexivity|]. intros u Hu.
  apply sorted_is_sorted in Hu.
  eapply (read_config_urls_invariant
            (fun u => Py.startswith "https://" u = true
                      /\ forall t, u ≠ t +:+ "/")); eauto.
  - intros raw Hraw. split; [exact Hraw|]. apply rstrip_no_trailing_slash.
  - intros x Hx. set_solver.
Qed.

Lemma copilot_reader_reports_trimmed_urls_witness :
  exists urls : gset string,
    stdout (snd (PerOrg.get_configured_servers (start sample_config)))
    = [JsonDump None (JArr (JStr <$> Py.sorted urls))]
    /\ forall u, u ∈ Py.sorted urls ->
         Py.startswith "https://" u = true /\ forall t, u ≠ t +:+ "/".
Proof.
  apply (copilot_reader_reports_trimmed_urls (start sample_config)
           (snd (PerOrg.get_configured_servers (start sample_config))) 0%Z).
  vm_compute. reflexivity.
Defined.

(** X16.  The unified reader asked for the Claude CLI alone never looks at
    the configuration file and always returns 0: it prints the URLs found
    in the output of [claude mcp list], and the empty array when the CLI is
    absent, cannot be started, times out or exits with a non-zero code. *)
Theorem claude_reader_always_succeeds (h : host) (s : state) :
  Unified.get_configured_servers h (Some "claude") s
  = (Returned 0,
     State (config s)
       (stdout s ++ [JsonDump None (JArr (JStr <$> Py.sorted (claude_urls h)))])
       (stderr s)).
Proof. rewrite reader_after_first_source. reflexivity. Qed.

(** X12.  On a configuration file whose server entries are objects with a
    [str] URL (or none), the unified reader asked for both tools returns 0
    and prints the sorted union of the URLs found in the output of
    [claude mcp list] and the trimmed [https://] URLs of the entries. *)
Theorem reader_prints_union (h : host) (top d : list (string * json))
    (s : state) :
  config s = JsonDoc (JObj top) ->
  read_servers top = JObj d ->
  forallb entry_readable (map snd d) = true ->
  Unified.get_configured_servers h None s
  = (Returned 0,
     State (config s)
       (stdout s
        ++ [JsonDump None
              (JArr (JStr <$> Py.sorted
                       (claude_urls h
                        ∪ list_to_set (omap entry_url (map snd d)))))])
       (stderr s)).
Proof.
  intros Hc Hd Hr. rewrite reader_after_first_source.
  unfold finish_reader, bind. cbn [default one_of existsb String.eqb Ascii.eqb Bool.eqb orb].
  rewrite (read_config_urls_object top) by exact Hc. rewrite Hd.
  pose proof (add_server_urls_cases (map snd d) (claude_urls h) s) as H.
  rewrite Hr in H. rewrite H. reflexivity.
Qed.

Lemma reader_prints_union_witness :
  Unified.get_configured_servers quiet_host None (start sample_config)
  = (Returned 0,
     State sample_config
       [JsonDump None (JArr [JStr "https://a.example"; JStr "https://b.example"])]
       []).
Proof.
  etrans;
    [apply (reader_prints_union quiet_host [("servers", JObj sample_entries)]
              sample_entries (start sample_config)); reflexivity
    | vm_compute; reflexivity].
Defined.

(** ** Writing, then reading *)

Lemma entry_readable_set (name mcp_url : string) (d : list (string * json)) :
  forallb entry_readable (map snd d) = true ->
  forallb entry_readable (map snd (dict_set name (server_entry mcp_url) d)) = true.
Proof.
  induction d as [|[k v] d IH]; cbn [dict_set map forallb snd]; [reflexivity|].
  intros [Hv Hd]%andb_true_iff.
  destruct (String.eqb name k); cbn [map forallb snd].
  - now rewrite Hd.
  - now rewrite Hv, IH.
Qed.

Lemma entry_url_set (name mcp_url : string) (d : list (string * json)) :
  In (server_entry mcp_url) (map snd (dict_set name (server_entry mcp_url) d)).
Proof.
  induction d as [|[k v] d IH]; cbn [dict_set map snd]; [now left|].
  destruct (String.eqb name k); cbn [map snd]; [now left | now right].
Qed.

Lemma merge_then_read (name mcp_url : string) (top d : list (string * json)) :
  dict_get "mcpServers" top = None \/ dict_get "servers" top = None ->
  read_servers top = JObj d ->
  exists top',
    merge_entry name mcp_url (JObj top) = Val (JObj top')
    /\ read_servers top' = JObj (dict_set name (server_entry mcp_url) d).
Proof.
  intros Hone Hread. unfold merge_entry, servers_key_of, dict_has.
  unfold read_servers, dict_get_default in *.
  destruct (dict_get "servers" top) as [vs|] eqn:Hs.
  - destruct Hone as [Hm|]; [|discriminate]. rewrite Hm in Hread. subst vs.
    rewrite Hs. eexists. split; [reflexivity|].
    rewrite dict_get_set_ne, Hm, dict_get_set_eq by discriminate. reflexivity.
  - destruct (dict_get "mcpServers" top) as [vm|] eqn:Hm.
    + subst vm. eexists. split; [reflexivity|].
      now rewrite dict_get_set_eq.
    + injection Hread as <-. eexists. split; [reflexivity|].
      now rewrite dict_get_set_eq.
Qed.

(** X17.  Writing, then reading: when the store does not hold both servers
    keys and its entries are readable, the URL that the writer stored is
    among the URLs that the reader collects from the rewritten file. *)
Theorem written_url_is_read_back (h : host) (mcp_url name : string)
    (top d : list (string * json)) (s : state) :
  mkdir_error h = None -> write_error h = None ->
  config s = JsonDoc (JObj top) ->
  dict_get "mcpServers" top = None \/ dict_get "servers" top = None ->
  read_servers top = JObj d ->
  forallb entry_readable (map snd d) = true ->
  Py.startswith "https://" (Py.rstrip "/" mcp_url) = true ->
  exists s1 urls,
    PerOrg.configure_copilot h mcp_url name s = (Val tt, s1)
    /\ Common.read_config_urls ∅ s1 = (Val urls, s1)
    /\ Py.rstrip "/" mcp_url ∈ urls.
Proof.
  intros Hmk Hwr Hc Hone Hread Hd Hurl.
  destruct (merge_then_read name mcp_url top d Hone Hread) as (top' & Hm & Hr').
  rewrite configure_copilot_step. unfold write_step.
  rewrite Hmk, Hwr, Hc. cbn [stored]. rewrite Hm.
  eexists. eexists. split; [reflexivity|].
  rewrite (read_config_urls_object top') by reflexivity. rewrite Hr'.
  match goal with |- context [for_each ?l _ ?u ?st] =>
    pose proof (add_server_urls_cases l u st) as H end.
  rewrite entry_readable_set in H by exact Hd. rewrite H.
  split; [reflexivity|].
  rewrite elem_of_union, elem_of_list_to_set, list_elem_of_omap. right.
  exists (server_entry mcp_url).
  split; [apply list_elem_of_In, entry_url_set|].
  unfold entry_url, server_entry. cbn. now rewrite Hurl.
Qed.

Lemma written_url_is_read_back_witness :
  exists s1 urls,
    PerOrg.configure_copilot quiet_host "https://acme.crm.dynamics.com/api/mcp"
      "DataverseMcpacme" (start sample_config)
    = (Val tt, s1)
    /\ Common.read_config_urls ∅ s1 = (Val urls, s1)
    /\ "https://acme.crm.dynamics.com/api/mcp" ∈ urls.
Proof.
  apply (written_url_is_read_back quiet_host
           "https://acme.crm.dynamics.com/api/mcp" "DataverseMcpacme"
           [("servers", JObj sample_entries)] sample_entries
           (start sample_config)); try reflexivity.
  left. reflexivity.
Defined.

Lemma add_server_url_pure (v : json) (urls : gset string) :
  exists r, forall s, Common.add_server_url v urls s = (r, s).
Proof.
  unfold Common.add_server_url, py_get, py_rstrip, bind, ret, raise.
  destruct v as [| | | | |e]; try (eexists; reflexivity).
  destruct (dict_get_default "url" (JStr "") e); try (eexists; reflexivity).
  destruct (Py.startswith _ _); eexists; reflexivity.
Qed.

Lemma add_server_urls_pure (vs : list json) (urls : gset string) :
  exists r, forall s, for_each vs Common.add_server_url urls s = (r, s).
Proof.
  revert urls; induction vs as [|v vs IH]; intros urls.
  - eexists. reflexivity.
  - destruct (add_server_url_pure v urls) as [[urls1|c|e] Hv].
    + destruct (IH urls1) as [r Hr]. exists r. intros s.
      cbn [for_each]. unfold bind. now rewrite Hv, Hr.
    + exists (Returned c). intros s. cbn [for_each]. unfold bind. now rewrite Hv.
    + exists (Raised e). intros s. cbn [for_each]. unfold bind. now rewrite Hv.
Qed.

(** X18.  When the store holds both keys, the writer stores the entry under
    [servers] while the reader goes through [mcpServers]: the reader then
    collects from the rewritten file exactly what it collected before. *)
Theorem write_under_servers_is_not_read (h : host) (mcp_url name : string)
    (top d : list (string * json)) (m : json) (s : state) :
  mkdir_error h = None -> write_error h = None ->
  config s = JsonDoc (JObj top) ->
  dict_get "servers" top = Some (JObj d) ->
  dict_get "mcpServers" top = Some m ->
  exists top',
    PerOrg.configure_copilot h mcp_url name s
    = (Val tt, State (JsonDoc (JObj top')) (stdout s) (stderr s))
    /\ dict_get "servers" top'
       = Some (JObj (dict_set name (server_entry mcp_url) d))
    /\ read_servers top' = read_servers top
    /\ forall urls,
         fst (Common.read_config_urls urls
                (State (JsonDoc (JObj top')) (stdout s) (stderr s)))
         = fst (Common.read_config_urls urls s).
Proof.
  intros Hmk Hwr Hc Hs Hm.
  rewrite configure_copilot_step. unfold write_step.
  rewrite Hmk, Hwr, Hc. cbn [stored]. unfold merge_entry, servers_key_of, dict_has.
  rewrite Hs. cbn beta iota. rewrite Hs.
  eexists. split; [reflexivity|]. split; [apply dict_get_set_eq|].
  assert (Hread : read_servers
                    (dict_set "servers"
                       (JObj (dict_set name (server_entry mcp_url) d)) top)
                  = read_servers top).
  { unfold read_servers, dict_get_default.
    now rewrite dict_get_set_ne, Hm by discriminate. }
  split; [exact Hread|]. intros urls.
  rewrite (read_config_urls_object
             (dict_set "servers"
                (JObj (dict_set name (server_entry mcp_url) d)) top))
    by reflexivity.
  rewrite (read_config_urls_object top urls s Hc). rewrite Hread.
  destruct (read_servers top) as [| | | | |dm]; try reflexivity.
  destruct (add_server_urls_pure (map snd dm) urls) as [r Hr].
  rewrite !Hr. destruct r as [a|c|e]; try reflexivity.
  now destruct (_ || _).
Qed.

Lemma write_under_servers_is_not_read_witness :
  exists top',
    PerOrg.configure_copilot quiet_host "https://acme.crm.dynamics.com/api/mcp"
      "DataverseMcpacme" (start (JsonDoc (JObj both_keys_store)))
    = (Val tt, State (JsonDoc (JObj top')) [] [])
    /\ read_servers top' = JObj [("old", server_entry "https://old.example/")].
Proof.
  destruct (write_under_servers_is_not_read quiet_host
              "https://acme.crm.dynamics.com/api/mcp" "DataverseMcpacme"
              both_keys_store [("github", server_entry "https://gh.example/mcp")]
              (JObj [("old", server_entry "https://old.example/")])
              (start (JsonDoc (JObj both_keys_store)))
              eq_refl eq_refl eq_refl eq_refl eq_refl)
    as (top' & Hrun & _ & Hread & _).
  exists top'. split; [exact Hrun | exact Hread].
Defined.

(** ** The failures of the environment lister before the request *)

(** X3.  The three failures before the request: without the Azure CLI the
    lister returns 1 at once; when the session probe fails or times out and
    the interactive login exits with a non-zero code, it returns 1 with the
    login diagnostic; when the token command fails or times out, it returns
    1 with the token diagnostic.  Each time one line goes to the error
    stream and nothing to the standard output. *)
Theorem list_environments_auth_errors (h : host) (s : state) :
  (which h "az" = false ->
   Unified.list_environments h s
   = (Returned 1,
      State (config s) (stdout s)
        (stderr s ++ [Text "Error: Azure CLI (az) is not installed. Install it from https://aka.ms/installazurecli"])))
  /\ (which h "az" = true ->
      (az_account_show h = Expired
       \/ exists rc out err,
            az_account_show h = Within (Exited rc out err) /\ rc ≠ 0%Z) ->
      (exists rc out err, az_login h = Exited rc out err /\ rc ≠ 0%Z) ->
      Unified.list_environments h s
      = (Returned 1,
         State (config s) (stdout s)
           (stderr s ++ [Text "Error: Azure login failed."])))
  /\ (which h "az" = true ->
      session_ready h = true ->
      (az_get_access_token h = Expired
       \/ exists rc out err,
            az_get_access_token h = Within (Exited rc out err) /\ rc ≠ 0%Z) ->
      Unified.list_environments h s
      = (Returned 1,
         State (config s) (stdout s)
           (stderr s ++ [Text "Error: Could not obtain an access token. Run 'az login' and try again."]))).
Proof.
  assert (Hg : global_ Unified.globals "shutil" = ret tt) by reflexivity.
  split; [|split].
  - intros Haz. unfold Unified.list_environments, Common.list_environments.
    rewrite Hg. unfold bind at 1. unfold ret at 1. now rewrite Haz.
  - intros Haz Hshow (rc' & out' & err' & Hlogin & Hrc').
    unfold Unified.list_environments, Common.list_environments.
    rewrite Hg. unfold bind at 1. unfold ret at 1. rewrite Haz. cbn [negb].
    unfold bind at 1. unfold try_except at 1. unfold bind at 1.
    unfold run_timed at 1, run at 1.
    assert ((rc' =? 0)%Z = false) as Hz' by lia.
    destruct Hshow as [-> | (rc & out & err & -> & Hrc)].
    + unfold raise at 1. cbn [orb is_CalledProcessError is_TimeoutExpired].
      unfold try_except at 1. unfold bind at 1. unfold run at 1.
      rewrite Hlogin, Hz'. reflexivity.
    + assert ((rc =? 0)%Z = false) as -> by lia. cbn [andb negb].
      unfold raise at 1. cbn [orb is_CalledProcessError].
      unfold try_except at 1. unfold bind at 1. unfold run at 1.
      rewrite Hlogin, Hz'. reflexivity.
  - intros Haz Hsess Htok.
    unfold Unified.list_environments, Common.list_environments.
    rewrite Hg. unfold bind at 1. unfold ret at 1. rewrite Haz. cbn [negb].
    assert (Hsession :
      try_except (bind (run_timed true (az_account_show h)) (fun _ => ret tt))
        (fun e => is_CalledProcessError e || is_TimeoutExpired e)
        (fun _ => try_except (bind (run true (az_login h)) (fun _ => ret tt))
                    is_CalledProcessError
                    (fun _ => bind (eprint (Text "Error: Azure login failed."))
                                (fun _ => return_ 1))) s
      = (Val tt, s)).
    { unfold session_ready, login_succeeds in Hsess.
      unfold try_except, bind, ret, raise, run_timed, run.
      destruct (az_account_show h) as [[rc o e|]|]; try discriminate.
      - destruct (rc =? 0)%Z; cbn in *; [reflexivity|].
        destruct (az_login h) as [rc' o' e'|]; try discriminate.
        now rewrite Hsess.
      - cbn. destruct (az_login h) as [rc' o' e'|]; try discriminate.
        now rewrite Hsess. }
    unfold bind at 1. rewrite Hsession.
    unfold bind at 1. unfold try_except at 1. unfold bind at 1.
    unfold run_timed, run.
    destruct Htok as [-> | (rc & out & err & -> & Hrc)].
    + reflexivity.
    + assert ((rc =? 0)%Z = false) as -> by lia. reflexivity.
Qed.

Lemma list_environments_auth_errors_witness :
  Unified.list_environments bare_host (start NoFile)
  = (Returned 1,
     State NoFile []
       [Text "Error: Azure CLI (az) is not installed. Install it from https://aka.ms/installazurecli"]).
Proof.
  exact (proj1 (list_environments_auth_errors bare_host (start NoFile)) eq_refl).
Defined.

(** ** The toggle of the management API *)

Lemma lower_char_idempotent (c : ascii) :
  Py.lower_char (Py.lower_char c) = Py.lower_char c.
Proof. destruct c as [[] [] [] [] [] [] [] []]; vm_compute; reflexivity. Qed.

Lemma lower_idempotent (s : string) : Py.lower (Py.lower s) = Py.lower s.
Proof.
  induction s as [|c s IH]; [reflexivity|].
  cbn [Py.lower]. now rewrite lower_char_idempotent, IH.
Qed.

(** X5.  The endpoint of the management API is one of two URLs; it is the
    pre-release one exactly when the toggle variable is set and its
    lowercased value is [true], [1] or [yes], so the case of the value does
    not matter, and an unset variable selects production. *)
Theorem api_toggle_ignores_case (h h' : host) :
  (env_usetip h' = Py.lower <$> env_usetip h ->
   Common.api_url h' = Common.api_url h)
  /\ (env_usetip h = None -> Common.api_url h = production_url)
  /\ (Common.api_url h = production_url \/ Common.api_url h = tip_url)
  /\ (Common.api_url h = tip_url <->
      exists v, env_usetip h = Some v
                /\ (Py.lower v = "true" \/ Py.lower v = "1" \/ Py.lower v = "yes")).
Proof.
  unfold Common.api_url. repeat split.
  - intros ->. destruct (env_usetip h) as [v|]; cbn [fmap option_fmap option_map default from_option id];
      [now rewrite lower_idempotent|reflexivity].
  - now intros ->.
  - destruct (existsb _ _); auto.
  - destruct (env_usetip h) as [v|]; cbn [default from_option id].
    + destruct (existsb _ _) eqn:E; [|discriminate]. intros _. exists v.
      split; [reflexivity|]. cbn in E.
      rewrite !orb_true_iff, !String.eqb_eq in E. intuition congruence.
    + cbn. discriminate.
  - intros (v & -> & Hv). cbn [default from_option id].
    assert (existsb (String.eqb (Py.lower v)) ["true"; "1"; "yes"] = true) as ->;
      [|reflexivity].
    cbn. destruct Hv as [-> | [-> | ->]]; reflexivity.
Qed.

(** ** The organization name *)

(** X19.  The organization name never holds a dot; for a URL without a
    scheme it is still the first label; and two URLs with the same first
    label get the same server name, whatever their scheme and what follows
    the label. *)
Theorem org_name_edge_cases :
  (forall org_url, Py.mem_char "." (PerOrg.extract_org_name org_url) = false)
  /\ (forall label rest,
        is_label label = true ->
        PerOrg.extract_org_name (label +:+ "." +:+ rest) = label)
  /\ (forall label rest rest',
        is_label label = true ->
        PerOrg.get_server_name ("https://" +:+ label +:+ "." +:+ rest)
        = PerOrg.get_server_name ("http://" +:+ label +:+ "." +:+ rest')).
Proof.
  assert (Hbare : forall label rest,
            is_label label = true ->
            PerOrg.extract_org_name (label +:+ String "." rest) = label).
  { intros label rest Hl. unfold PerOrg.extract_org_name.
    rewrite !replace_label by auto.
    unfold Py.rstrip. rewrite rstrip_by_keeps by reflexivity.
    now apply split_head_label. }
  split; [|split].
  - intros org_url. unfold PerOrg.extract_org_name.
    generalize (Py.rstrip "/" (Py.replace "http://" "" (Py.replace "https://" "" org_url))).
    intros s. induction s as [|c s IH]; [reflexivity|]. cbn [Py.split_head].
    destruct (Ascii.eqb c ".") eqn:E; [reflexivity|].
    cbn [Py.mem_char]. rewrite Ascii.eqb_sym, E. exact IH.
  - intros label rest Hl. exact (Hbare label rest Hl).
  - intros label rest rest' Hl. unfold PerOrg.get_server_name. f_equal.
    unfold PerOrg.extract_org_name.
    change ("https://" +:+ label +:+ "." +:+ rest)
      with ("https://" +:+ (label +:+ String "." rest)).
    change ("http://" +:+ label +:+ "." +:+ rest')
      with ("http://" +:+ (label +:+ String "." rest')).
    rewrite replace_https_scheme, replace_https_keeps_http, replace_http_scheme.
    rewrite !replace_label by auto.
    unfold Py.rstrip. rewrite !rstrip_by_keeps by reflexivity.
    now rewrite !split_head_label.
Qed.

Lemma org_name_edge_cases_witness :
  PerOrg.extract_org_name "acme.crm.dynamics.com" = "acme".
Proof.
  exact (proj1 (proj2 org_name_edge_cases) "acme" "crm.dynamics.com" eq_refl).
Defined.

(** ** The empty store *)

(** X21.  A missing configuration file and a file that does not parse as
    JSON are both taken for the empty store: the writer creates the file
    with the single key [mcpServers] holding the single new entry, in both
    variants. *)
Theorem writer_on_empty_store (h : host) (mcp_url name : string) (s : state) :
  mkdir_error h = None -> write_error h = None ->
  config s = NoFile \/ config s = NotJson ->
  PerOrg.configure_copilot h mcp_url name s
  = (Val tt,
     State (JsonDoc (JObj [("mcpServers", JObj [(name, server_entry mcp_url)])]))
       (stdout s) (stderr s))
  /\ Unified.configure_copilot h mcp_url s
     = (Val tt,
        State (JsonDoc (JObj [("mcpServers",
                               JObj [("Dataverse", server_entry mcp_url)])]))
          (stdout s) (stderr s)).
Proof.
  intros Hmk Hwr Hcfg. split.
  - now apply merge_write_fresh.
  - change (Unified.configure_copilot h mcp_url s)
      with (PerOrg.configure_copilot h mcp_url "Dataverse" s).
    now apply merge_write_fresh.
Qed.

Lemma writer_on_empty_store_witness :
  PerOrg.configure_copilot quiet_host "https://acme.crm.dynamics.com/api/mcp"
    "DataverseMcpacme" (start NotJson)
  = (Val tt,
     State (JsonDoc (JObj [("mcpServers",
                            JObj [("DataverseMcpacme",
                                   server_entry "https://acme.crm.dynamics.com/api/mcp")])]))
       [] []).
Proof.
  exact (proj1 (writer_on_empty_store quiet_host
                  "https://acme.crm.dynamics.com/api/mcp" "DataverseMcpacme"
                  (start NotJson) eq_refl eq_refl (or_intror eq_refl))).
Defined.
